(** * cli.ts: the local request server of denoflare

    A shallow embedding of [cli.ts]: the script runner, the hot reloader,
    the memoized external-IP lookup, the HTTP/WebSocket bridge ([handle]) and
    the accept loop.  Everything the file calls but does not define (the Deno
    runtime, [WorkerManager], [WorkerExecution], [DenoflareResponse]) is an
    oracle of the record [Runtime]; every theorem quantifies over it. *)

From Stdlib Require Import ZArith String Ascii List Lia Bool.
From stdpp Require Import base gmap strings list pretty.
Import ListNotations.

Open Scope string_scope.
Open Scope list_scope.

(** ** The JavaScript operations the file relies on *)

Module Js.

(** [String.prototype.endsWith(searchString)]: the receiver's last
    [searchString.length] code units are compared with [searchString]. *)
Definition endsWith (s searchString : string) : bool :=
  let len := String.length s in
  let searchLength := String.length searchString in
  if Nat.leb searchLength len
  then String.eqb (substring (len - searchLength) searchLength s) searchString
  else false.

(** [x || undefined] on a [string | null]: [null] and the empty string are
    falsy, every other string is kept. *)
Definition or_undefined (x : option string) : option string :=
  match x with
  | Some EmptyString => None
  | Some s => Some s
  | None => None
  end.

(** [x || d] on an optional integer-valued number: [undefined] and [0] are
    falsy. *)
Definition or_number (x : option Z) (d : Z) : Z :=
  match x with
  | Some n => if Z.eqb n 0 then d else n
  | None => d
  end.

(** [!!x] on an optional boolean. *)
Definition truthy (x : option bool) : bool :=
  match x with
  | Some b => b
  | None => false
  end.

(** The class [\s] of a regular expression without the [u] flag, on the code
    units below 256 that a [string] of this development holds: TAB, LF, VT,
    FF, CR, SPACE and NO-BREAK SPACE. *)
Definition is_space (c : ascii) : bool :=
  let n := N_of_ascii c in
  (N.leb 9 n && N.leb n 13) || N.eqb n 32 || N.eqb n 160.

(** The capture group of the trace pattern, zero or more code units outside
    the class: the longest run of non-space code units. *)
Fixpoint non_space_run (s : string) : string :=
  match s with
  | EmptyString => EmptyString
  | String c rest => if is_space c then EmptyString else String c (non_space_run rest)
  end.

Fixpoint drop (n : nat) (s : string) : string :=
  match n, s with
  | O, _ => s
  | S n', String _ rest => drop n' rest
  | S _, EmptyString => EmptyString
  end.

(** The pattern of [fetchExternalIp] run on [trace]: the literal [ip=]
    followed by the capture group.  The leftmost occurrence of [ip=]
    decides; the result is the capture, [None] when there is no match. *)
Fixpoint exec_ip (trace : string) : option string :=
  if String.prefix "ip=" trace then Some (non_space_run (drop 3 trace))
  else match trace with
       | EmptyString => None
       | String _ rest => exec_ip rest
       end.

(** [new TextEncoder().encode(s)]: UTF-8 of the code units of [s]; a code
    unit below 128 is one byte, one from 128 to 255 two bytes.
    [encode(undefined)] is the empty array. *)
Definition utf8_of_code_unit (c : ascii) : list Byte.byte :=
  let n := N_of_ascii c in
  if N.ltb n 128 then [byte_of_ascii c]
  else [byte_of_ascii (ascii_of_N (N.lor 192 (N.shiftr n 6)));
        byte_of_ascii (ascii_of_N (N.lor 128 (N.land n 63)))].

Fixpoint utf8 (s : string) : list Byte.byte :=
  match s with
  | EmptyString => []
  | String c rest => utf8_of_code_unit c ++ utf8 rest
  end.

Definition encode (s : option string) : list Byte.byte :=
  match s with
  | Some s => utf8 s
  | None => []
  end.

End Js.

(** ** Data *)

(** ['module' | 'script'] *)
Inductive ScriptType := Module_ | Script_.

(** The fields of a configured script that [cli.ts] reads. *)
Record Script := {
  path : string;
  localPort : option Z;
  localHostname : option string;
  localInProcess : option bool;
  bindings : list (string * string);
}.

Definition Error := string.

Record Request := {
  method : string;
  url : string;
  headers : gmap string string;   (* lower-case name to combined value *)
}.

(** [request.headers.get(name)] *)
Definition headers_get (request : Request) (name : string) : option string :=
  headers request !! name.

(** A native [Response]. *)
Record RealResponse := {
  real_status : Z;
  real_body : option string;
}.

(** [ResponseInit & { webSocket?: CloudflareWebSocket }] *)
Record ResponseInit := {
  status : option Z;
  webSocket : option nat;
}.

Record DenoflareResponse := {
  bodyInit : option string;
  init : option ResponseInit;
}.

(** What [localRequestServer.fetch] resolves to: [DenoflareResponse.is]
    tells the two forms apart. *)
Inductive Response :=
| Native (r : RealResponse)
| Denoflare (d : DenoflareResponse).

(** The options [{ cfConnectingIp, hostname }] handed to [fetch]. *)
Record FetchOpts := {
  cfConnectingIp : string;
  hostname : option string;
}.

(** [LocalRequestServer]: the isolated worker host or an in-process execution
    (the handle that [WorkerExecution.start] returned). *)
Inductive LocalRequestServer :=
| WorkerManager
| WorkerExecution (handle : nat).

(** Observable actions, in the order they happen. *)
Inductive Event :=
| ConsoleLog (msg : string)
| ConsoleError (msg : string) (e : Error)
| ReadFile (scriptPath : string)
| Emit (scriptPath : string)
| WorkerManagerStart
| WorkerManagerRun (scriptContents : list Byte.byte) (scriptType : ScriptType)
| WorkerExecutionStart (scriptPath : string) (scriptType : ScriptType)
| WatchFs (scriptPath : string)
| FetchTrace
| UpgradeWebSocket (request : Request)
| ServerFetch (server : LocalRequestServer) (request : Request) (opts : FetchOpts)
| SetRealWebsocket (serverWebsocket websocket : nat)
| RespondWith (request : Request) (response : RealResponse).

(** The mutable state of the process and of the machine around it. *)
Record World := {
  files : gmap string (list Byte.byte);          (* the file system *)
  cached : option string;                        (* the cell of [memoize] *)
  trace_fetches : nat;                           (* fetches of the trace URL so far *)
  worker : option (list Byte.byte * ScriptType); (* what the worker host runs *)
  now : Z;                                       (* clock, in ms *)
  timers : list (nat * Z);                       (* pending timeouts: id, deadline *)
  next_timer : nat;
  journal : list Event;
}.

(** How a call ends: a value, an exception (a rejected promise), or
    [Deno.exit]. *)
Inductive Outcome (A : Type) :=
| Returned (a : A)
| Thrown (e : Error)
| Exited (code : Z).
Arguments Returned {A} a.
Arguments Thrown {A} e.
Arguments Exited {A} code.

Definition M (A : Type) : Type := World -> Outcome A * World.

Definition ret {A} (a : A) : M A := fun w => (Returned a, w).

Definition bind {A B} (m : M A) (k : A -> M B) : M B :=
  fun w =>
    match m w with
    | (Returned a, w') => k a w'
    | (Thrown e, w') => (Thrown e, w')
    | (Exited c, w') => (Exited c, w')
    end.

Definition throw {A} (e : Error) : M A := fun w => (Thrown e, w).

Definition exit {A} (code : Z) : M A := fun w => (Exited code, w).

(** [try { m } catch (e) { h e }], also [m.catch(h)]. *)
Definition try_catch {A} (m : M A) (h : Error -> M A) : M A :=
  fun w =>
    match m w with
    | (Thrown e, w') => h e w'
    | r => r
    end.

Notation "'let!' x ':=' m 'in' k" := (bind m (fun x => k))
  (at level 10, x pattern, m at level 100, k at level 200).
Notation "m >>; k" := (bind m (fun _ => k))
  (at level 100, k at level 200, right associativity).

Definition emit_event (ev : Event) : M unit :=
  fun w =>
    (Returned tt,
     {| files := files w; cached := cached w; trace_fetches := trace_fetches w;
        worker := worker w; now := now w; timers := timers w;
        next_timer := next_timer w; journal := journal w ++ [ev] |}).

Definition consoleLog (msg : string) : M unit := emit_event (ConsoleLog msg).
Definition consoleError (msg : string) (e : Error) : M unit :=
  emit_event (ConsoleError msg e).

(** Lift the answer of an oracle: [inl e] throws. *)
Definition lift {A} (r : Error + A) : M A :=
  match r with
  | inr a => ret a
  | inl e => throw e
  end.

(** [for await (const x of xs) body(x)]: an exception of the body leaves the
    loop. *)
Fixpoint for_await {A} (xs : list A) (body : A -> M unit) : M unit :=
  match xs with
  | [] => ret tt
  | x :: rest => body x >>; for_await rest body
  end.

(** ** The runtime around [cli.ts] *)

Record Runtime := {
  (* Deno.emit(scriptPath, { bundle: 'module' }): the [files] of the result *)
  deno_emit : gmap string (list Byte.byte) -> string -> Error + gmap string string;
  (* WorkerManager.start() *)
  workerManager_start : option Error;
  (* workerManager.run(scriptContents, scriptType, { bindings, credential }) *)
  workerManager_run : list Byte.byte -> ScriptType -> option Error;
  (* WorkerExecution.start(scriptPath, scriptType, bindings, callbacks) *)
  workerExecution_start :
    gmap string (list Byte.byte) -> string -> ScriptType -> Error + nat;
  (* (await fetch('https://cloudflare.com/cdn-cgi/trace')).text(), n-th call *)
  fetch_trace : nat -> Error + string;
  (* Deno.upgradeWebSocket(request): the socket and the 101 response *)
  upgradeWebSocket : Request -> Error + (nat * RealResponse);
  (* workerManager.fetch, on what the worker host runs *)
  workerManager_fetch :
    option (list Byte.byte * ScriptType) -> Request -> FetchOpts -> Error + Response;
  (* workerExecution.fetch *)
  workerExecution_fetch : nat -> Request -> FetchOpts -> Error + Response;
  (* res.getDenoflareServerWebSocket() *)
  getDenoflareServerWebSocket : DenoflareResponse -> option nat;
  (* respondWith(response) of a request event *)
  respondWith : Request -> RealResponse -> option Error;
}.

(** World updates. *)
Definition set_cached (v : option string) (w : World) : World :=
  {| files := files w; cached := v; trace_fetches := trace_fetches w;
     worker := worker w; now := now w; timers := timers w;
     next_timer := next_timer w; journal := journal w |}.

Definition set_worker (v : option (list Byte.byte * ScriptType)) (w : World) : World :=
  {| files := files w; cached := cached w; trace_fetches := trace_fetches w;
     worker := v; now := now w; timers := timers w;
     next_timer := next_timer w; journal := journal w |}.

Definition set_files (v : gmap string (list Byte.byte)) (w : World) : World :=
  {| files := v; cached := cached w; trace_fetches := trace_fetches w;
     worker := worker w; now := now w; timers := timers w;
     next_timer := next_timer w; journal := journal w |}.

Definition set_now (t : Z) (w : World) : World :=
  {| files := files w; cached := cached w; trace_fetches := trace_fetches w;
     worker := worker w; now := t; timers := timers w;
     next_timer := next_timer w; journal := journal w |}.

Definition set_timers (ts : list (nat * Z)) (w : World) : World :=
  {| files := files w; cached := cached w; trace_fetches := trace_fetches w;
     worker := worker w; now := now w; timers := ts;
     next_timer := next_timer w; journal := journal w |}.

(** [setTimeout(callback, delay)]: a fresh id, due [delay] ms from now.  The
    only callback the file ever schedules is [runScript]. *)
Definition setTimeout (delay : Z) : M nat :=
  fun w =>
    (Returned (next_timer w),
     {| files := files w; cached := cached w; trace_fetches := trace_fetches w;
        worker := worker w; now := now w;
        timers := timers w ++ [(next_timer w, now w + delay)%Z];
        next_timer := S (next_timer w); journal := journal w |}).

(** [clearTimeout(id)]: nothing for [undefined] or for a timer that is not
    pending. *)
Definition clearTimeout (id : option nat) : M unit :=
  fun w =>
    match id with
    | Some i =>
        (Returned tt,
         set_timers (List.filter (fun t => negb (Nat.eqb (fst t) i)) (timers w)) w)
    | None => (Returned tt, w)
    end.

(** [Deno.readFile(scriptPath)] *)
Definition readFile (scriptPath : string) : M (list Byte.byte) :=
  emit_event (ReadFile scriptPath) >>;
  fun w =>
    match files w !! scriptPath with
    | Some data => (Returned data, w)
    | None => (Thrown ("NotFound: " +:+ scriptPath), w)
    end.

(** ** The program *)

Section Cli.

Variable host : Runtime.
Variable script : Script.

(** [const port = script.localPort || 8080], the port of [Deno.listen]. *)
Definition port : Z := Js.or_number (localPort script) 8080.

(** [const runInProcess = !!script.localInProcess] *)
Definition runInProcess : bool := Js.truthy (localInProcess script).

(** [Deno.emit(scriptPath, { bundle: 'module' })] *)
Definition emit (scriptPath : string) : M (gmap string string) :=
  emit_event (Emit scriptPath) >>;
  fun w => lift (deno_emit host (files w) scriptPath) w.

(** The elapsed time of the last log line is left out of the message. *)
Definition computeScriptContents (scriptPath : string) (scriptType : ScriptType)
  : M (list Byte.byte) :=
  match scriptType with
  | Script_ => readFile scriptPath
  | Module_ =>
      let! result := emit scriptPath in
      consoleLog "[emit result]" >>;
      let workerJs := result !! "deno:///bundle.js" in
      let rt := Js.encode workerJs in
      consoleLog ("Compiled " +:+ scriptPath +:+ " into module contents") >>;
      ret rt
  end.

(** [const scriptType = script.path.endsWith('.ts') ? 'module' : 'script'] *)
Definition scriptType : ScriptType :=
  if Js.endsWith (path script) ".ts" then Module_ else Script_.

(** [WorkerManager.start()] *)
Definition WorkerManager_start : M LocalRequestServer :=
  emit_event WorkerManagerStart >>;
  match workerManager_start host with
  | None => ret WorkerManager
  | Some e => throw e
  end.

(** Modelled from the spec: the effect of [workerManager.run] on the worker
    host, whose code (worker_manager.ts) is not among the sources: "a new
    run call first tears down any previously running instance inside the
    same sandbox, ensuring at most one active script per supervisor";
    a failure "is reported to the caller". *)
Definition workerManager_run_ (scriptContents : list Byte.byte) (scriptType : ScriptType)
  : M unit :=
  emit_event (WorkerManagerRun scriptContents scriptType) >>;
  fun w =>
    match workerManager_run host scriptContents scriptType with
    | None => (Returned tt, set_worker (Some (scriptContents, scriptType)) w)
    | Some e => (Thrown e, set_worker None w)
    end.

(** [WorkerExecution.start(script.path, scriptType, bindings, callbacks)] *)
Definition WorkerExecution_start (scriptPath : string) (scriptType : ScriptType)
  : M LocalRequestServer :=
  emit_event (WorkerExecutionStart scriptPath scriptType) >>;
  fun w =>
    match workerExecution_start host (files w) scriptPath scriptType with
    | inr handle => (Returned (WorkerExecution handle), w)
    | inl e => (Thrown e, w)
    end.

(** [runScript]: the contents are computed outside the [try]. *)
Definition runScript : M unit :=
  consoleLog ("runScript: " +:+ path script) >>;
  let! scriptContents := computeScriptContents (path script) scriptType in
  try_catch
    (workerManager_run_ scriptContents scriptType)
    (fun e => consoleError "Error running script" e >>; exit 1).

(** [createLocalRequestServer]: the server, and whether the loop over
    [Deno.watchFs(script.path)] was started. *)
Definition createLocalRequestServer : M (LocalRequestServer * bool) :=
  if runInProcess then
    let! execution := WorkerExecution_start (path script) scriptType in
    ret (execution, false)
  else
    let! workerManager := WorkerManager_start in
    runScript >>;
    emit_event (WatchFs (path script)) >>;
    ret (workerManager, true).

End Cli.

(** ** The local server: lines 98 to 168 *)

(** A connection as [handle] sees it: the requests that [Deno.serveHttp]
    yields, and the error its iterator ends with, if any. *)
Record Conn := {
  requests : list Request;
  broken : option Error;
}.

Section Server.

Variable host : Runtime.
Variable script : Script.
Variable localRequestServer : LocalRequestServer.

(** [(await fetch('https://cloudflare.com/cdn-cgi/trace')).text()] *)
Definition fetch_trace_text : M string :=
  emit_event FetchTrace >>;
  fun w =>
    let n := trace_fetches w in
    let w' :=
      {| files := files w; cached := cached w; trace_fetches := S n;
         worker := worker w; now := now w; timers := timers w;
         next_timer := next_timer w; journal := journal w |} in
    lift (fetch_trace host n) w'.

(** [memoize(fn)], for a call that no other call overlaps: the cell is
    written after [fn] has resolved, never when it throws.  The steps of
    calls that overlap are [act], further down. *)
Definition memoize (fn : M string) : M string :=
  fun w =>
    match cached w with
    | Some c => (Returned c, w)
    | None =>
        (let! rt := fn in
         fun w' => (Returned rt, set_cached (Some rt) w')) w
    end.

Definition fetchExternalIp : M string :=
  consoleLog "fetchExternalIp: Fetching..." >>;
  let! trace := fetch_trace_text in
  match Js.exec_ip trace with
  | None => throw ("computeExternalIp: Unexpected trace: " +:+ trace)
  | Some externalIp =>
      consoleLog ("fetchExternalIp: Determined to be " +:+ externalIp) >>;
      ret externalIp
  end.

Definition computeExternalIp : M string := memoize fetchExternalIp.

(** [localRequestServer.fetch(request, { cfConnectingIp, hostname })] *)
Definition executor_answer (running : option (list Byte.byte * ScriptType))
    (request : Request) (opts : FetchOpts) : Error + Response :=
  match localRequestServer with
  | WorkerManager => workerManager_fetch host running request opts
  | WorkerExecution handle => workerExecution_fetch host handle request opts
  end.

Definition server_fetch (request : Request) (opts : FetchOpts) : M Response :=
  emit_event (ServerFetch localRequestServer request opts) >>;
  fun w => lift (executor_answer (worker w) request opts) w.

(** [Deno.upgradeWebSocket(request)] *)
Definition Deno_upgradeWebSocket (request : Request) : M (nat * RealResponse) :=
  emit_event (UpgradeWebSocket request) >>;
  lift (upgradeWebSocket host request).

(** [respondWith(response).catch(e => consoleError(...))] *)
Definition respond (request : Request) (response : RealResponse) : M unit :=
  try_catch
    (emit_event (RespondWith request response) >>;
     match respondWith host request response with
     | None => ret tt
     | Some e => throw e
     end)
    (fun e => consoleError "Error in respondWith" e).

(** Modelled from the spec: [DenoflareResponse.toRealResponse], whose file
    (denoflare_response.ts) is not among the sources: "translate a deferred
    response to an error (illegal outside upgrade), translate a normal
    abstraction response to a native response"; "translation to a native
    response is only valid for the non-deferred form". *)
Definition toRealResponse (d : DenoflareResponse) : M RealResponse :=
  match init d with
  | Some i =>
      match webSocket i with
      | Some _ => throw "toRealResponse: a response with a webSocket has no native form"
      | None =>
          ret {| real_status := default 200%Z (status i); real_body := bodyInit d |}
      end
  | None => ret {| real_status := 200; real_body := bodyInit d |}
  end.

(** [`${res.init?.status}`] *)
Definition show_status (s : option Z) : string :=
  match s with
  | Some n => pretty n
  | None => "undefined"
  end.

(** The body of the [try] of [handle], for one request. *)
Definition service_body (request : Request) : M unit :=
  let! cfConnectingIp := computeExternalIp in
  let hostname := localHostname script in
  let upgrade := Js.or_undefined (headers_get request "upgrade") in
  match upgrade with
  | Some upgrade =>
      (* websocket upgrade request *)
      if negb (String.eqb upgrade "websocket")
      then throw ("Unsupported upgrade: " +:+ upgrade)
      else
        let! (websocket, response) := Deno_upgradeWebSocket request in
        let! res := server_fetch request
                      {| cfConnectingIp := cfConnectingIp; hostname := hostname |} in
        match res with
        | Denoflare d =>
            match init d with
            | Some i =>
                match webSocket i with
                | Some _ =>
                    if negb (bool_decide (status i = Some 101%Z))
                    then throw ("Bad response status: expected 101, found "
                                +:+ show_status (status i))
                    else
                      match getDenoflareServerWebSocket host d with
                      | None => throw "Bad response: expected websocket"
                      | Some serverWebsocket =>
                          emit_event (SetRealWebsocket serverWebsocket websocket)
                      end
                | None => ret tt
                end
            | None => ret tt
            end
        | Native _ => ret tt
        end >>;
        respond request response
  | None =>
      (* normal request *)
      let! res := server_fetch request
                    {| cfConnectingIp := cfConnectingIp; hostname := hostname |} in
      let! res := match res with
                  | Denoflare d => toRealResponse d
                  | Native r => ret r
                  end in
      respond request res
  end.

(** One turn of the loop of [handle]. *)
Definition service (request : Request) : M unit :=
  try_catch (service_body request)
            (fun e => consoleError "Error servicing request" e).

(** [handle(conn)] *)
Definition handle (conn : Conn) : M unit :=
  for_await (requests conn) service >>;
  match broken conn with
  | Some e => throw e
  | None => ret tt
  end.

(** The accept loop: [handle(conn).catch(...)] for every connection.  The
    connections are taken one after the other; the source lets them
    interleave at their awaits. *)
Definition serve (conns : list Conn) : M unit :=
  for_await conns
    (fun conn => try_catch (handle conn) (fun e => consoleError "Error in handle" e)) >>;
  consoleLog "end of cli".

End Server.

(** What the accept loop logs when [handle] ends with the error of a broken
    connection. *)
Definition hang_up (conn : Conn) (w : World) : World :=
  match broken conn with
  | Some e => snd (consoleError "Error in handle" e w)
  | None => w
  end.

(** The world after every request of a list had its turn of [handle]. *)
Definition serviced (host : Runtime) (script : Script) (server : LocalRequestServer)
    (requests : list Request) (w : World) : World :=
  fold_left (fun w request => snd (service host script server request w)) requests w.

(** ** The hot reloader and the event loop: lines 80 to 90 *)

(** [Deno.FsEvent] *)
Record FsEvent := {
  kind : string;
  paths : list string;
}.

(** What happens around the process: a file is written, or the watcher
    delivers an event. *)
Inductive Happening :=
| FileWrite (filePath : string) (data : list Byte.byte)
| Watched (event : FsEvent).

Inductive Status :=
| Running
| ExitedWith (code : Z)      (* Deno.exit(code) *)
| Unhandled (e : Error).     (* a rejection nobody handles ends the process *)

Record Process := {
  world : World;
  server : option LocalRequestServer;   (* const localRequestServer *)
  watching : bool;                      (* the loop over the watcher runs *)
  timeoutId : option nat;               (* let timeoutId: number | undefined *)
  alive : Status;
  fired : list (nat * Z);               (* timeouts that ran: id, time *)
}.

Definition with_world (w : World) (p : Process) : Process :=
  {| world := w; server := server p; watching := watching p;
     timeoutId := timeoutId p; alive := alive p; fired := fired p |}.

Definition with_status (s : Status) (p : Process) : Process :=
  {| world := world p; server := server p; watching := watching p;
     timeoutId := timeoutId p; alive := s; fired := fired p |}.

Definition with_timeoutId (i : option nat) (p : Process) : Process :=
  {| world := world p; server := server p; watching := watching p;
     timeoutId := i; alive := alive p; fired := fired p |}.

Definition with_fired (f : list (nat * Z)) (p : Process) : Process :=
  {| world := world p; server := server p; watching := watching p;
     timeoutId := timeoutId p; alive := alive p; fired := f |}.

(** How the process goes on after a top-level or timer computation. *)
Definition settle_outcome {A} (r : Outcome A * World) (p : Process) : Process :=
  match r with
  | (Returned _, w) => with_world w p
  | (Thrown e, w) => with_status (Unhandled e) (with_world w p)
  | (Exited c, w) => with_status (ExitedWith c) (with_world w p)
  end.

(** Is the timeout [id] pending? *)
Definition pending (id : nat) (w : World) : bool :=
  existsb (fun t => Nat.eqb (fst t) id) (timers w).

(** The world in which the callback of [timer] starts: the clock has reached
    its deadline and the timeout is no longer pending. *)
Definition at_fire (timer : nat * Z) (w : World) : World :=
  let w := set_now (Z.max (now w) (snd timer)) w in
  set_timers (List.filter (fun t => negb (Nat.eqb (fst t) (fst timer))) (timers w)) w.

Section Reloader.

Variable host : Runtime.
Variable script : Script.

(** [event.paths.includes(script.path)] *)
Definition includes (xs : list string) (x : string) : bool :=
  existsb (String.eqb x) xs.

(** The test of the watcher loop. *)
Definition is_modify_of_script (event : FsEvent) : bool :=
  String.eqb (kind event) "modify" && includes (paths event) (path script).

(** The body of [for await (const event of watcher)]. *)
Definition on_event (timeoutId : option nat) (event : FsEvent) : M (option nat) :=
  if is_modify_of_script event then
    (* a single file modification sends two modify events, so coalesce them *)
    clearTimeout timeoutId >>;
    let! id := setTimeout 500 in
    ret (Some id)
  else ret timeoutId.

(** The timeout [timer] runs its callback, [runScript], if it is still
    pending. *)
Definition fire (p : Process) (timer : nat * Z) : Process :=
  match alive p with
  | Running =>
      if pending (fst timer) (world p) then
        let w := at_fire timer (world p) in
        settle_outcome (runScript host script w)
                       (with_fired (fired p ++ [(fst timer, now w)]) p)
      else p
  | _ => p
  end.

(** The clock reaches [t]: the timeouts due by then run, oldest first. *)
Definition advance (t : Z) (p : Process) : Process :=
  let due := List.filter (fun timer => Z.leb (snd timer) t) (timers (world p)) in
  let p := fold_left fire due p in
  match alive p with
  | Running => with_world (set_now (Z.max (now (world p)) t) (world p)) p
  | _ => p
  end.

(** One happening at time [t]. *)
Definition deliver (p : Process) (x : Z * Happening) : Process :=
  let p := advance (fst x) p in
  match alive p with
  | Running =>
      match snd x with
      | FileWrite filePath data =>
          with_world (set_files (<[filePath := data]> (files (world p))) (world p)) p
      | Watched event =>
          if watching p then
            match on_event (timeoutId p) event (world p) with
            | (Returned id, w) => with_timeoutId id (with_world w p)
            | r => settle_outcome r p
            end
          else p
      end
  | _ => p
  end.

Definition run_timeline (p : Process) (timeline : list (Z * Happening)) : Process :=
  fold_left deliver timeline p.

(** Nothing more happens: every pending timeout runs. *)
Definition settle (p : Process) : Process :=
  fold_left fire (timers (world p)) p.

(** Start of the process, up to [const localRequestServer = await
    createLocalRequestServer()]. *)
Definition boot (w : World) : Process :=
  match createLocalRequestServer host script w with
  | (Returned (s, watch), w') =>
      {| world := w'; server := Some s; watching := watch; timeoutId := None;
         alive := Running; fired := [] |}
  | (Thrown e, w') =>
      {| world := w'; server := None; watching := false; timeoutId := None;
         alive := Unhandled e; fired := [] |}
  | (Exited c, w') =>
      {| world := w'; server := None; watching := false; timeoutId := None;
         alive := ExitedWith c; fired := [] |}
  end.

(** A request on a running process. *)
Definition request_on (p : Process) (request : Request) : Process :=
  match alive p, server p with
  | Running, Some s => settle_outcome (service host script s request (world p)) p
  | _, _ => p
  end.

(** The file system after the writes of a timeline. *)
Definition written (timeline : list (Z * Happening)) (fs : gmap string (list Byte.byte))
  : gmap string (list Byte.byte) :=
  fold_left
    (fun fs x =>
       match snd x with
       | FileWrite filePath data => <[filePath := data]> fs
       | Watched _ => fs
       end)
    timeline fs.

(** The time of the last modify event of the script in a timeline, and the
    number of such events. *)
Definition last_modify (timeline : list (Z * Happening)) : option Z :=
  fold_left
    (fun acc x =>
       match snd x with
       | Watched event => if is_modify_of_script event then Some (fst x) else acc
       | FileWrite _ _ => acc
       end)
    timeline None.

Definition count_modify (timeline : list (Z * Happening)) : nat :=
  List.length
    (List.filter
       (fun x =>
          match snd x with
          | Watched event => is_modify_of_script event
          | FileWrite _ _ => false
          end)
       timeline).

End Reloader.

(** ** Concrete runtimes, scripts and requests *)

Module Demo.

Definition bytes_of (s : string) : list Byte.byte := list_byte_of_string s.

Definition line_feed : string := String (ascii_of_nat 10) EmptyString.

Definition trace_text : string :=
  "fl=29f100" +:+ line_feed +:+ "ip=203.0.113.7" +:+ line_feed +:+ "ts=1".

Definition ok_response : RealResponse :=
  {| real_status := 200; real_body := Some "ok" |}.

Definition switching_protocols : RealResponse :=
  {| real_status := 101; real_body := None |}.

(** A deferred response: it carries the script side of a socket pair. *)
Definition deferred_with (s : option Z) : DenoflareResponse :=
  {| bodyInit := None; init := Some {| status := s; webSocket := Some 3%nat |} |}.

Definition plain_denoflare : DenoflareResponse :=
  {| bodyInit := Some "hello";
     init := Some {| status := Some 201%Z; webSocket := None |} |}.

(** The script of the examples answers by URL. *)
Definition answer (request : Request) : Error + Response :=
  if String.eqb (url request) "/ws" then inr (Denoflare (deferred_with (Some 101%Z)))
  else if String.eqb (url request) "/ws200" then inr (Denoflare (deferred_with (Some 200%Z)))
  else if String.eqb (url request) "/hello" then inr (Denoflare plain_denoflare)
  else if String.eqb (url request) "/throw" then inl "script threw"
  else inr (Native ok_response).

Definition online : Runtime :=
  {| deno_emit := fun fs scriptPath =>
       match fs !! scriptPath with
       | Some _ => inr {[ "deno:///bundle.js" := "export default {}" ]}
       | None => inl "Module not found"
       end;
     workerManager_start := None;
     workerManager_run := fun scriptContents _ =>
       match scriptContents with
       | Byte.x21 :: _ => Some "SyntaxError: Unexpected token '!'"
       | _ => None
       end;
     workerExecution_start := fun _ _ _ => inr 1%nat;
     fetch_trace := fun _ => inr trace_text;
     upgradeWebSocket := fun _ => inr (7%nat, switching_protocols);
     workerManager_fetch := fun _ request _ => answer request;
     workerExecution_fetch := fun _ request _ => answer request;
     getDenoflareServerWebSocket := fun d =>
       match init d with
       | Some i => webSocket i
       | None => None
       end;
     respondWith := fun _ _ => None |}.

(** The same machine without a network. *)
Definition offline : Runtime :=
  {| deno_emit := deno_emit online;
     workerManager_start := workerManager_start online;
     workerManager_run := workerManager_run online;
     workerExecution_start := workerExecution_start online;
     fetch_trace := fun _ => inl "network unreachable";
     upgradeWebSocket := upgradeWebSocket online;
     workerManager_fetch := workerManager_fetch online;
     workerExecution_fetch := workerExecution_fetch online;
     getDenoflareServerWebSocket := getDenoflareServerWebSocket online;
     respondWith := respondWith online |}.

Definition classic : Script :=
  {| path := "worker.js"; localPort := Some 3000%Z; localHostname := None;
     localInProcess := None; bindings := [] |}.

Definition typescript : Script :=
  {| path := "worker.ts"; localPort := None; localHostname := Some "example.com";
     localInProcess := None; bindings := [] |}.

Definition in_process : Script :=
  {| path := "worker.ts"; localPort := None; localHostname := None;
     localInProcess := Some true; bindings := [] |}.

Definition port_zero : Script :=
  {| path := "worker.js"; localPort := Some 0%Z; localHostname := None;
     localInProcess := None; bindings := [] |}.

Definition disk : gmap string (list Byte.byte) :=
  {[ "worker.js" := bytes_of "addEventListener('fetch', f)";
     "worker.ts" := bytes_of "export default { fetch }" ]}.

Definition fresh : World :=
  {| files := disk; cached := None; trace_fetches := 0; worker := None;
     now := 0; timers := []; next_timer := 1; journal := [] |}.

Definition get (u : string) : Request :=
  {| method := "GET"; url := u; headers := ∅ |}.

Definition get_upgrade (u value : string) : Request :=
  {| method := "GET"; url := u; headers := {[ "upgrade" := value ]} |}.

Definition modify (scriptPath : string) : Happening :=
  Watched {| kind := "modify"; paths := [scriptPath] |}.

(** One edit of worker.js at 1000 ms surfaces as two events; a second edit
    follows 200 ms later. *)
Definition burst : list (Z * Happening) :=
  [ (1000%Z, FileWrite "worker.js" (bytes_of "v2"));
    (1000%Z, modify "worker.js");
    (1003%Z, modify "worker.js");
    (1200%Z, FileWrite "worker.js" (bytes_of "v3"));
    (1200%Z, modify "worker.js");
    (1201%Z, modify "worker.js") ].

(** An edit that the worker host rejects. *)
Definition bad_edit : list (Z * Happening) :=
  [ (1000%Z, FileWrite "worker.js" (bytes_of "!oops"));
    (1000%Z, modify "worker.js") ].

(** An edit of worker.ts. *)
Definition ts_edit : list (Z * Happening) :=
  [ (1000%Z, FileWrite "worker.ts" (bytes_of "export default { fetch: g }"));
    (1000%Z, modify "worker.ts") ].

(** The world in which worker.js runs in the worker host. *)
Definition serving : World := world (boot online classic fresh).

End Demo.

(** ** The words of the specification *)

(** The path ends with '.ts'. *)
Definition ends_with_ts (p : string) : Prop := exists stem, p = stem +:+ ".ts".

(** A deferred response carries a WebSocket; every other response is of the
    non-deferred form. *)
Definition deferred (res : Response) : bool :=
  match res with
  | Denoflare d =>
      match init d with
      | Some i => bool_decide (is_Some (webSocket i))
      | None => false
      end
  | Native _ => false
  end.

(** Calls of the executor, native upgrade handshakes, replies and wirings in
    a journal. *)
Definition executor_calls (j : list Event) : nat :=
  List.length (List.filter (fun ev => match ev with ServerFetch _ _ _ => true | _ => false end) j).

Definition handshakes (j : list Event) : nat :=
  List.length (List.filter (fun ev => match ev with UpgradeWebSocket _ => true | _ => false end) j).

Definition replies (j : list Event) : nat :=
  List.length (List.filter (fun ev => match ev with RespondWith _ _ => true | _ => false end) j).

Definition wirings (j : list Event) : nat :=
  List.length (List.filter (fun ev => match ev with SetRealWebsocket _ _ => true | _ => false end) j).

Ltac unfold_m :=
  unfold lift, consoleLog, consoleError, emit_event, try_catch, bind, ret, throw,
    exit in *.

(** The process between two turns of a burst: the watcher runs, at most the
    timeout of the last modify event (at [last]) is pending, [n] timeouts
    were scheduled since [p0], the files are [fs] and the clock shows [t]. *)
Definition calm (p0 : Process) (last : option Z) (n : nat)
    (fs : gmap string (list Byte.byte)) (t : Z) : Process :=
  let w0 := world p0 in
  {| world :=
       {| files := fs; cached := cached w0; trace_fetches := trace_fetches w0;
          worker := worker w0; now := t;
          timers := match last with
                    | Some t' => [((next_timer w0 + n - 1)%nat, (t' + 500)%Z)]
                    | None => []
                    end;
          next_timer := (next_timer w0 + n)%nat; journal := journal w0 |};
     server := server p0; watching := true;
     timeoutId := match last with
                  | Some _ => Some (next_timer w0 + n - 1)%nat
                  | None => timeoutId p0
                  end;
     alive := Running; fired := fired p0 |}.

(** One turn of a burst on [last], [n] and the files. *)
Definition turn (script : Script) (acc : option Z * nat * gmap string (list Byte.byte))
    (x : Z * Happening) : option Z * nat * gmap string (list Byte.byte) :=
  let '(last, n, fs) := acc in
  match snd x with
  | FileWrite filePath data => (last, n, <[filePath := data]> fs)
  | Watched event =>
      if is_modify_of_script script event then (Some (fst x), S n, fs)
      else (last, n, fs)
  end.

(** The times of a timeline do not go back, starting from [t]. *)
Fixpoint ascending (t : Z) (timeline : list (Z * Happening)) : bool :=
  match timeline with
  | [] => true
  | x :: rest => Z.leb t (fst x) && ascending (fst x) rest
  end.

(** Everything in the timeline happens within the 500 ms after [t0]. *)
Definition within_window (t0 : Z) (timeline : list (Z * Happening)) : bool :=
  forallb (fun x => Z.leb t0 (fst x) && Z.ltb (fst x) (t0 + 500)) timeline.

(** The time of the last happening of a timeline that starts at [t]. *)
Definition end_time (t : Z) (timeline : list (Z * Happening)) : Z :=
  fold_left (fun _ x => fst x) timeline t.

(** Without a watcher and without a pending timeout nothing ever reloads. *)
Definition idle (p0 p : Process) : Prop :=
  watching p = false /\ timers (world p) = [] /\ fired p = fired p0 /\
  journal (world p) = journal (world p0) /\ server p = server p0 /\
  worker (world p) = worker (world p0) /\ alive p = alive p0.

(** ** Further words for the properties of the program *)

(** [needle] occurs in [s]. *)
Definition occurs (needle s : string) : Prop :=
  exists pre post, s = pre +:+ needle +:+ post.

Fixpoint all_chars (f : ascii -> bool) (s : string) : bool :=
  match s with
  | EmptyString => true
  | String c rest => f c && all_chars f rest
  end.

(** [s] is empty or starts with a space of the class [\s]. *)
Definition at_space_or_end (s : string) : bool :=
  match s with
  | EmptyString => true
  | String c _ => Js.is_space c
  end.

(** A call of the executor in the journal is the one [handle] makes for
    [request] with the external IP [ip]. *)
Definition carries (script : Script) (server : LocalRequestServer) (ip : string)
    (request : Request) (ev : Event) : Prop :=
  match ev with
  | ServerFetch s r o =>
      s = server /\ r = request /\
      o = {| cfConnectingIp := ip; hostname := localHostname script |}
  | _ => True
  end.

(** At most one timeout is pending, and it is the one [timeoutId] names. *)
Definition tidy (p : Process) : Prop :=
  timers (world p) = [] \/
  exists i d, timers (world p) = [(i, d)] /\ timeoutId p = Some i.

(** The happening is a modify event of the script. *)
Definition is_modify_happening (script : Script) (x : Z * Happening) : bool :=
  match snd x with
  | Watched event => is_modify_of_script script event
  | FileWrite _ _ => false
  end.

(** [p'] went on from [p]: the timeouts that ran since are appended to
    [fired], and together with the pending ones they are at most [k] more
    than were pending in [p]. *)
Definition advanced (k : nat) (p p' : Process) : Prop :=
  tidy p' /\
  exists more,
    fired p' = fired p ++ more /\
    (List.length more + List.length (timers (world p'))
     <= List.length (timers (world p)) + k)%nat.

(** The time of the last modify event of the script after one more
    happening. *)
Definition last_after (script : Script) (last : option Z) (x : Z * Happening)
  : option Z :=
  if is_modify_happening script x then Some (fst x) else last.

(** Every happening comes less than 500 ms after the modify event of the
    script before it, if there is one: the pending timeout never gets to
    run inside the timeline. *)
Fixpoint uninterrupted (script : Script) (last : option Z)
    (timeline : list (Z * Happening)) : bool :=
  match timeline with
  | [] => true
  | x :: rest =>
      match last with
      | Some t => Z.ltb (fst x) (t + 500)
      | None => true
      end && uninterrupted script (last_after script last x) rest
  end.

(** The world in which the reload after a timeline starts, when its last
    modify event of the script was at [t_last] and nothing ran in between. *)
Definition reload_world (script : Script) (p : Process)
    (timeline : list (Z * Happening)) (t_last : Z) : World :=
  {| files := written timeline (files (world p));
     cached := cached (world p);
     trace_fetches := trace_fetches (world p);
     worker := worker (world p);
     now := (t_last + 500)%Z;
     timers := [];
     next_timer := (next_timer (world p) + count_modify script timeline)%nat;
     journal := journal (world p) |}.

(** ** The callbacks of the in-process execution: lines 44 to 59 *)

(** The argument of [onModuleWorkerInfo]; the two parts are opaque to
    [cli.ts]. *)
Record ModuleWorkerInfo := {
  moduleWorkerExportedFunctions : nat;
  moduleWorkerEnv : nat;
}.

(** [new InProcessDurableObjects(moduleWorkerExportedFunctions,
    moduleWorkerEnv)]: every construction is an object of its own, told apart
    here by its number. *)
Record InProcessDurableObjects := {
  construction : nat;
  built_from : ModuleWorkerInfo;
}.

(** What [doNamespaceProvider] returns. *)
Inductive DurableObjectNamespace :=
| UnimplementedDurableObjectNamespace (doNamespace : string)
| ResolveDoNamespace (objects : InProcessDurableObjects) (doNamespace : string).

(** [const { accountId, apiToken } = credential] *)
Record Credential := {
  accountId : string;
  apiToken : string;
}.

(** A call of one of the callbacks by the execution. *)
Inductive CallbackCall :=
| OnModuleWorkerInfo (moduleWorkerInfo : ModuleWorkerInfo)
| GlobalCachesProvider
| KvNamespaceProvider (kvNamespace : string)
| DoNamespaceProvider (doNamespace : string)
| IncomingRequestCfPropertiesProvider.

Inductive CallbackResult :=
| Nothing
| NoopCfGlobalCaches
| ApiKVNamespace (accountId apiToken kvNamespace : string)
| Namespace (ns : DurableObjectNamespace)
| MakeIncomingRequestCfProperties.

(** The closure of the callbacks: [let objects], and how many registries
    were constructed so far. *)
Record Closure := {
  objects : option InProcessDurableObjects;
  constructions : nat;
}.

Definition callback (credential : Credential) (c : Closure) (call : CallbackCall)
  : Closure * CallbackResult :=
  match call with
  | OnModuleWorkerInfo moduleWorkerInfo =>
      ({| objects := Some {| construction := constructions c;
                             built_from := moduleWorkerInfo |};
          constructions := S (constructions c) |},
       Nothing)
  | GlobalCachesProvider => (c, NoopCfGlobalCaches)
  | KvNamespaceProvider kvNamespace =>
      (c, ApiKVNamespace (accountId credential) (apiToken credential) kvNamespace)
  | DoNamespaceProvider doNamespace =>
      match objects c with
      | None => (c, Namespace (UnimplementedDurableObjectNamespace doNamespace))
      | Some o => (c, Namespace (ResolveDoNamespace o doNamespace))
      end
  | IncomingRequestCfPropertiesProvider => (c, MakeIncomingRequestCfProperties)
  end.

(** The closure after a sequence of calls. *)
Definition after_calls (credential : Credential) (calls : list CallbackCall)
    (c : Closure) : Closure :=
  fold_left (fun c call => fst (callback credential c call)) calls c.

(** [let objects: InProcessDurableObjects | undefined] at the start. *)
Definition fresh_closure : Closure := {| objects := None; constructions := 0 |}.

(** The module infos reported in a sequence of calls, oldest first. *)
Fixpoint reported (calls : list CallbackCall) : list ModuleWorkerInfo :=
  match calls with
  | [] => []
  | OnModuleWorkerInfo moduleWorkerInfo :: rest => moduleWorkerInfo :: reported rest
  | _ :: rest => reported rest
  end.

(** ** Overlapping calls of [computeExternalIp]: lines 98 to 119, 164 to 166 *)

(** The accept loop does not await [handle(conn)], so the calls of the
    memoized function made by different connections overlap: a call runs line
    101 and, on a miss, starts [fn] and is suspended at [await fn()]; it runs
    on, lines 103 and 104, when its own fetch has settled, and that is the
    moment at which the cell is written.  [memoize] above is the call that
    nothing overlaps; the steps of overlapping calls follow. *)

(** What [fetchExternalIp] settles to, by what the network answers. *)
Definition fetched (net : Error + string) : Error + string :=
  match net with
  | inl e => inl e
  | inr trace =>
      match Js.exec_ip trace with
      | Some externalIp => inr externalIp
      | None => inl ("computeExternalIp: Unexpected trace: " +:+ trace)
      end
  end.

Inductive Action :=
| Begin (call : nat)                           (* lines 101 and 102, up to the await *)
| Settle (call : nat) (net : Error + string).  (* the await returns: lines 102 to 104 *)

Record Lookups := {
  cell : option string;                      (* let cached: T | undefined *)
  started : nat;                             (* fetches started so far *)
  waiting : list nat;                        (* calls suspended at await fn() *)
  finished : list (nat * Outcome string);    (* how calls ended, oldest first *)
}.

(** The first occurrence of [call] leaves the waiting calls. *)
Fixpoint resume (call : nat) (calls : list nat) : list nat :=
  match calls with
  | [] => []
  | c :: rest => if Nat.eqb c call then rest else c :: resume call rest
  end.

Definition act (l : Lookups) (a : Action) : Lookups :=
  match a with
  | Begin call =>
      match cell l with
      | Some c =>
          (* if (cached !== undefined) return cached *)
          {| cell := cell l; started := started l; waiting := waiting l;
             finished := finished l ++ [(call, Returned c)] |}
      | None =>
          (* const rt = await fn() *)
          {| cell := None; started := S (started l);
             waiting := waiting l ++ [call]; finished := finished l |}
      end
  | Settle call net =>
      if existsb (Nat.eqb call) (waiting l) then
        match fetched net with
        | inr rt =>
            (* cached = rt; return rt *)
            {| cell := Some rt; started := started l;
               waiting := resume call (waiting l);
               finished := finished l ++ [(call, Returned rt)] |}
        | inl e =>
            {| cell := cell l; started := started l;
               waiting := resume call (waiting l);
               finished := finished l ++ [(call, Thrown e)] |}
        end
      else l
  end.

Definition run_lookups (schedule : list Action) (l : Lookups) : Lookups :=
  fold_left act schedule l.

(** The process has just started. *)
Definition no_lookups : Lookups :=
  {| cell := None; started := 0; waiting := []; finished := [] |}.

(** In [schedule], [call] began at a moment when the cell was empty. *)
Definition began_on_empty (schedule : list Action) (l : Lookups) (call : nat) : Prop :=
  exists before after,
    schedule = before ++ Begin call :: after /\ cell (run_lookups before l) = None.

(** The lookups of a world in which no call is under way. *)
Definition lookups_of (w : World) : Lookups :=
  {| cell := cached w; started := trace_fetches w; waiting := []; finished := [] |}.

(** ** Further words on one turn of [handle] *)

(** In what a turn appends to the journal, every reply is for [request] and
    is the last action but for the line that the handler of [respondWith]
    logs when the reply could not be written. *)
Fixpoint replies_logged (host : Runtime) (request : Request) (delta : list Event) : Prop :=
  match delta with
  | [] => True
  | RespondWith rq response :: rest =>
      rq = request /\
      rest = match respondWith host request response with
             | Some e => [ConsoleError "Error in respondWith" e]
             | None => []
             end
  | _ :: rest => replies_logged host request rest
  end.

(** Every reply comes after a call of the executor ([called]) and every
    wiring after a native handshake ([shaken]) and a call of the executor. *)
Fixpoint in_order (called shaken : bool) (delta : list Event) : bool :=
  match delta with
  | [] => true
  | ServerFetch _ _ _ :: rest => in_order true shaken rest
  | UpgradeWebSocket _ :: rest => in_order called true rest
  | RespondWith _ _ :: rest => called && in_order called shaken rest
  | SetRealWebsocket _ _ :: rest => called && shaken && in_order called shaken rest
  | _ :: rest => in_order called shaken rest
  end.

(** ** More concrete runtimes *)

Module Cases.

(** The handshake is refused. *)
Definition no_handshake : Runtime :=
  {| deno_emit := deno_emit Demo.online;
     workerManager_start := workerManager_start Demo.online;
     workerManager_run := workerManager_run Demo.online;
     workerExecution_start := workerExecution_start Demo.online;
     fetch_trace := fetch_trace Demo.online;
     upgradeWebSocket := fun _ => inl "Invalid Header: 'sec-websocket-key'";
     workerManager_fetch := workerManager_fetch Demo.online;
     workerExecution_fetch := workerExecution_fetch Demo.online;
     getDenoflareServerWebSocket := getDenoflareServerWebSocket Demo.online;
     respondWith := respondWith Demo.online |}.

(** The deferred responses carry a socket that is not a server socket. *)
Definition foreign_socket : Runtime :=
  {| deno_emit := deno_emit Demo.online;
     workerManager_start := workerManager_start Demo.online;
     workerManager_run := workerManager_run Demo.online;
     workerExecution_start := workerExecution_start Demo.online;
     fetch_trace := fetch_trace Demo.online;
     upgradeWebSocket := upgradeWebSocket Demo.online;
     workerManager_fetch := workerManager_fetch Demo.online;
     workerExecution_fetch := workerExecution_fetch Demo.online;
     getDenoflareServerWebSocket := fun _ => None;
     respondWith := respondWith Demo.online |}.

(** The peer is gone when the reply is written. *)
Definition broken_pipe : Runtime :=
  {| deno_emit := deno_emit Demo.online;
     workerManager_start := workerManager_start Demo.online;
     workerManager_run := workerManager_run Demo.online;
     workerExecution_start := workerExecution_start Demo.online;
     fetch_trace := fetch_trace Demo.online;
     upgradeWebSocket := upgradeWebSocket Demo.online;
     workerManager_fetch := workerManager_fetch Demo.online;
     workerExecution_fetch := workerExecution_fetch Demo.online;
     getDenoflareServerWebSocket := getDenoflareServerWebSocket Demo.online;
     respondWith := fun _ _ => Some "Broken pipe" |}.

(** The trace answers without an ip line; the bundler emits no bundle or
    fails, by the file. *)
Definition odd : Runtime :=
  {| deno_emit := fun fs scriptPath =>
       match fs !! scriptPath with
       | Some _ => inr ∅
       | None => inl "Module not found"
       end;
     workerManager_start := workerManager_start Demo.online;
     workerManager_run := workerManager_run Demo.online;
     workerExecution_start := workerExecution_start Demo.online;
     fetch_trace := fun _ => inr "fl=29f100 ts=1";
     upgradeWebSocket := upgradeWebSocket Demo.online;
     workerManager_fetch := workerManager_fetch Demo.online;
     workerExecution_fetch := workerExecution_fetch Demo.online;
     getDenoflareServerWebSocket := getDenoflareServerWebSocket Demo.online;
     respondWith := respondWith Demo.online |}.

(** A disk without the scripts. *)
Definition wiped : World :=
  {| files := ∅; cached := None; trace_fetches := 0; worker := None;
     now := 0; timers := []; next_timer := 1; journal := [] |}.

(** A disk on which worker.js is one the worker host rejects. *)
Definition spoiled : World :=
  {| files := {[ "worker.js" := Demo.bytes_of "!oops" ]}; cached := None;
     trace_fetches := 0; worker := None;
     now := 0; timers := []; next_timer := 1; journal := [] |}.

(** Modify events every 400 ms: 1.2 s in all, never 500 ms of quiet. *)
Definition slow_stream : list (Z * Happening) :=
  [ (1000%Z, Demo.modify "worker.js");
    (1400%Z, FileWrite "worker.js" (Demo.bytes_of "v2"));
    (1400%Z, Demo.modify "worker.js");
    (1800%Z, Demo.modify "worker.js");
    (2200%Z, Demo.modify "worker.js") ].

(** A second edit, a second after the burst of [Demo.burst]. *)
Definition later_edit : list (Z * Happening) :=
  [ (2500%Z, FileWrite "worker.js" (Demo.bytes_of "v4"));
    (2500%Z, Demo.modify "worker.js") ].

Definition info : ModuleWorkerInfo :=
  {| moduleWorkerExportedFunctions := 11; moduleWorkerEnv := 12 |}.

Definition keys : Credential := {| accountId := "acct"; apiToken := "secret" |}.

End Cases.

(** * Properties *)

(** ** Strings *)

Lemma substring_full (s : string) : substring 0 (String.length s) s = s.
Proof. induction s as [|c s IH]; simpl; [reflexivity | now rewrite IH]. Qed.

Lemma substring_after_append (p s : string) :
  substring (String.length p) (String.length s) (p +:+ s) = s.
Proof. induction p as [|c p IH]; simpl; [apply substring_full | exact IH]. Qed.

Lemma length_append (p s : string) :
  String.length (p +:+ s) = (String.length p + String.length s)%nat.
Proof. induction p as [|c p IH]; simpl; [reflexivity | now rewrite IH]. Qed.

Lemma substring_split (n : nat) : forall s : string,
  (n <= String.length s)%nat ->
  s = substring 0 n s +:+ substring n (String.length s - n) s.
Proof.
  induction n as [|n IH]; intros s Hn.
  - rewrite Nat.sub_0_r, substring_full. now destruct s.
  - destruct s as [|c s]; simpl in *; [lia |].
    change (String c s
            = String c (substring 0 n s +:+ substring n (String.length s - n) s)).
    f_equal. apply IH. lia.
Qed.

(** [endsWith] holds exactly of the strings that are some stem followed by
    the suffix. *)
Lemma endsWith_spec (s suffix : string) :
  Js.endsWith s suffix = true <-> exists stem, s = stem +:+ suffix.
Proof.
  unfold Js.endsWith. split.
  - destruct (Nat.leb_spec (String.length suffix) (String.length s)) as [Hle|];
      [|discriminate].
    intros H. apply String.eqb_eq in H.
    set (k := (String.length s - String.length suffix)%nat) in *.
    exists (substring 0 k s).
    assert (E := substring_split k s ltac:(lia)).
    replace (String.length s - k)%nat with (String.length suffix) in E by lia.
    now rewrite H in E.
  - intros [p ->]. rewrite length_append.
    destruct (Nat.leb_spec (String.length suffix)
                           (String.length p + String.length suffix)); [|lia].
    replace (String.length p + String.length suffix - String.length suffix)%nat
      with (String.length p) by lia.
    rewrite substring_after_append. apply String.eqb_refl.
Qed.

(** The JavaScript helpers on the strings the program meets. *)
Example endsWith_ts : Js.endsWith "src/worker.ts" ".ts" = true.
Proof. reflexivity. Qed.

Example endsWith_upper_case : Js.endsWith "worker.TS" ".ts" = false.
Proof. reflexivity. Qed.

Example endsWith_short : Js.endsWith "ts" ".ts" = false.
Proof. reflexivity. Qed.

Example exec_ip_of_trace : Js.exec_ip Demo.trace_text = Some "203.0.113.7".
Proof. reflexivity. Qed.

Example exec_ip_without_ip : Js.exec_ip "fl=29f100 ts=1" = None.
Proof. reflexivity. Qed.

Example exec_ip_empty_capture : Js.exec_ip "ip= 1.2.3.4" = Some EmptyString.
Proof. reflexivity. Qed.

Example encode_undefined : Js.encode None = [].
Proof. reflexivity. Qed.

Example encode_latin1 :
  Js.encode (Some (String (ascii_of_nat 233) EmptyString)) = [Byte.xc3; Byte.xa9].
Proof. reflexivity. Qed.

(** ** The port of the listener *)

(** C9, as stated, fails: a script configured with local port 0 is bound to
    8080, because [||] takes 0 for a missing value. *)
Lemma port_zero_not_bound :
  ~ (forall (script : Script) (n : Z), localPort script = Some n -> port script = n).
Proof.
  intros H. specialize (H Demo.port_zero 0%Z eq_refl). discriminate H.
Qed.

(** C9, amended: the listener binds to the configured local port when that
    port is not 0, and to 8080 when no local port is configured or the
    configured one is 0. *)
Theorem port_configured_or_default (script : Script) :
  (forall n : Z, localPort script = Some n -> n <> 0%Z -> port script = n) /\
  (localPort script = None -> port script = 8080%Z) /\
  (localPort script = Some 0%Z -> port script = 8080%Z).
Proof.
  unfold port, Js.or_number. repeat split.
  - intros n -> Hn. destruct (Z.eqb_spec n 0); [contradiction | reflexivity].
  - now intros ->.
  - now intros ->.
Qed.

Lemma port_configured_or_default_witness :
  port Demo.classic = 3000%Z /\ port Demo.typescript = 8080%Z /\
  port Demo.port_zero = 8080%Z.
Proof.
  destruct (port_configured_or_default Demo.classic) as [H _].
  destruct (port_configured_or_default Demo.typescript) as [_ [H' _]].
  destruct (port_configured_or_default Demo.port_zero) as [_ [_ H'']].
  split; [apply H; [reflexivity | lia] |].
  split; [apply H'; reflexivity | apply H''; reflexivity].
Defined.

(** ** The kind of the script *)

Lemma scriptType_module (script : Script) :
  ends_with_ts (path script) -> scriptType script = Module_.
Proof.
  intros H. apply endsWith_spec in H. unfold scriptType. now rewrite H.
Qed.

Lemma scriptType_script (script : Script) :
  ~ ends_with_ts (path script) -> scriptType script = Script_.
Proof.
  intros H. unfold scriptType.
  destruct (Js.endsWith (path script) ".ts") eqn:E; [|reflexivity].
  apply endsWith_spec in E. contradiction.
Qed.

(** C10: the kind handed to the executor comes from the path alone.  A path
    that ends with '.ts' makes [createLocalRequestServer] bundle the file with
    [Deno.emit], encode the bundle and run it as a module; any other path
    makes it read the file and run the bytes as a classic script.  In-process,
    the same kind goes to [WorkerExecution.start]. *)
Theorem script_kind_from_path (host : Runtime) (script : Script) (w : World) :
  let after := journal (snd (createLocalRequestServer host script w)) in
  (ends_with_ts (path script) -> scriptType script = Module_) /\
  (~ ends_with_ts (path script) -> scriptType script = Script_) /\
  (runInProcess script = true ->
   after = journal w ++ [WorkerExecutionStart (path script) (scriptType script)]) /\
  (runInProcess script = false -> workerManager_start host = None ->
   ends_with_ts (path script) ->
   forall out, deno_emit host (files w) (path script) = inr out ->
   exists rest,
     after =
     journal w ++
       [WorkerManagerStart; ConsoleLog ("runScript: " +:+ path script);
        Emit (path script); ConsoleLog "[emit result]";
        ConsoleLog ("Compiled " +:+ path script +:+ " into module contents");
        WorkerManagerRun (Js.encode (out !! "deno:///bundle.js")) Module_] ++ rest) /\
  (runInProcess script = false -> workerManager_start host = None ->
   ~ ends_with_ts (path script) ->
   forall data, files w !! path script = Some data ->
   exists rest,
     after =
     journal w ++
       [WorkerManagerStart; ConsoleLog ("runScript: " +:+ path script);
        ReadFile (path script); WorkerManagerRun data Script_] ++ rest).
Proof.
  intros after. subst after.
  split; [apply scriptType_module |]. split; [apply scriptType_script |].
  split; [| split].
  - intros Hp. unfold createLocalRequestServer, WorkerExecution_start. rewrite Hp.
    unfold_m. cbn.
    now destruct (workerExecution_start host (files w) (path script) (scriptType script)).
  - intros Hp Hs Hts out He. apply scriptType_module in Hts.
    unfold createLocalRequestServer, WorkerManager_start, runScript,
      computeScriptContents, emit, workerManager_run_.
    rewrite Hp, Hs, Hts. unfold_m. cbn. rewrite He. cbn.
    destruct (workerManager_run host _ Module_); cbn;
      eexists; rewrite <- !app_assoc; cbn; reflexivity.
  - intros Hp Hs Hts data Hd. apply scriptType_script in Hts.
    unfold createLocalRequestServer, WorkerManager_start, runScript,
      computeScriptContents, readFile, workerManager_run_.
    rewrite Hp, Hs, Hts. unfold_m. cbn. rewrite Hd. cbn.
    destruct (workerManager_run host _ Script_); cbn;
      eexists; rewrite <- !app_assoc; cbn; reflexivity.
Qed.

(** ** The hot reloader *)

Lemma world_of_settle_outcome {A} (r : Outcome A * World) (p : Process) :
  world (settle_outcome r p) = snd r.
Proof. destruct r as [[a|e|c] w]; reflexivity. Qed.

Lemma fired_of_settle_outcome {A} (r : Outcome A * World) (p : Process) :
  fired (settle_outcome r p) = fired p.
Proof. destruct r as [[a|e|c] w]; reflexivity. Qed.

Section Burst.

Variable host : Runtime.
Variable script : Script.

Open Scope Z_scope.

Lemma runScript_timers (w : World) :
  timers (snd (runScript host script w)) = timers w.
Proof.
  unfold runScript, computeScriptContents, readFile, emit, workerManager_run_.
  unfold_m. cbn.
  destruct (scriptType script); cbn.
  - destruct (deno_emit host (files w) (path script)); cbn; [reflexivity |].
    destruct (workerManager_run host _ _); reflexivity.
  - destruct (files w !! path script); cbn; [| reflexivity].
    destruct (workerManager_run host _ _); reflexivity.
Qed.

(** One happening inside the window: no timeout is due, a modify event of the
    script replaces the pending timeout by a fresh one. *)
Lemma deliver_calm p0 last n fs t t0 x :
  t <= fst x ->
  (forall t', last = Some t' -> t0 <= t') ->
  fst x < t0 + 500 ->
  deliver host script (calm p0 last n fs t) x =
  let '(last', n', fs') := turn script (last, n, fs) x in
  calm p0 last' n' fs' (fst x).
Proof.
  intros Ht Hlast Hx. destruct x as [tx h]. cbn [fst snd] in *.
  assert (Hadv : advance host script tx (calm p0 last n fs t)
                 = calm p0 last n fs tx).
  { unfold advance. destruct last as [t'|]; cbn.
    - specialize (Hlast t' eq_refl).
      destruct (Z.leb_spec (t' + 500) tx); [lia |].
      cbn. unfold with_world, set_now, calm; cbn. now rewrite Z.max_r by lia.
    - unfold with_world, set_now, calm; cbn. now rewrite Z.max_r by lia. }
  unfold deliver. cbn [fst snd]. rewrite Hadv. unfold turn. cbn [fst snd alive calm].
  destruct h as [filePath data | event]; [reflexivity |].
  cbn [watching]. unfold on_event.
  destruct (is_modify_of_script script event); [| reflexivity].
  destruct last as [t'|]; cbn.
  - rewrite Nat.eqb_refl. cbn. unfold calm, with_timeoutId, with_world. cbn.
    replace (next_timer (world p0) + S n - 1)%nat
      with (next_timer (world p0) + n)%nat by lia.
    replace (next_timer (world p0) + S n)%nat
      with (S (next_timer (world p0) + n))%nat by lia.
    reflexivity.
  - unfold calm, with_timeoutId, with_world; cbn.
    replace (next_timer (world p0) + S n - 1)%nat
      with (next_timer (world p0) + n)%nat by lia.
    replace (next_timer (world p0) + S n)%nat
      with (S (next_timer (world p0) + n))%nat by lia.
    destruct (timeoutId p0); reflexivity.
Qed.

Lemma run_timeline_calm p0 t0 timeline : forall last n fs t,
  ascending t timeline = true ->
  within_window t0 timeline = true ->
  (forall t', last = Some t' -> t0 <= t') ->
  run_timeline host script (calm p0 last n fs t) timeline =
  (let '(last', n', fs') := fold_left (turn script) timeline (last, n, fs) in
   calm p0 last' n' fs' (end_time t timeline)) /\
  (forall t', fst (fst (fold_left (turn script) timeline (last, n, fs))) = Some t' ->
              t0 <= t') /\
  (t < t0 + 500 -> end_time t timeline < t0 + 500).
Proof.
  unfold run_timeline, end_time.
  induction timeline as [|x rest IH]; intros last n fs t Hasc Hwin Hlast.
  - cbn. auto.
  - cbn in Hasc, Hwin. apply andb_prop in Hasc as [Hle Hasc], Hwin as [Hx Hwin].
    apply andb_prop in Hx as [Hx0 Hx1].
    apply Z.leb_le in Hle, Hx0. apply Z.ltb_lt in Hx1.
    cbn [fold_left]. rewrite (deliver_calm p0 last n fs t t0 x Hle Hlast Hx1).
    destruct (turn script (last, n, fs) x) as [[last' n'] fs'] eqn:E.
    assert (Hlast' : forall t', last' = Some t' -> t0 <= t').
    { intros t' ->. unfold turn in E. destruct (snd x) as [f d|ev].
      - inversion E; subst. now apply Hlast.
      - destruct (is_modify_of_script script ev); inversion E; subst;
          [lia | now apply Hlast]. }
    destruct (IH last' n' fs' (fst x) Hasc Hwin Hlast') as (H1 & H2 & H3).
    split; [exact H1 |]. split; [exact H2 |]. intros _. apply H3. lia.
Qed.

Lemma fold_turn timeline : forall last n fs,
  fold_left (turn script) timeline (last, n, fs) =
  (fold_left
     (fun acc x =>
        match snd x with
        | Watched event => if is_modify_of_script script event then Some (fst x) else acc
        | FileWrite _ _ => acc
        end) timeline last,
   (n + count_modify script timeline)%nat,
   written timeline fs).
Proof.
  unfold count_modify, written.
  induction timeline as [|x rest IH]; intros last n fs; cbn [fold_left List.filter].
  - cbn. now rewrite Nat.add_0_r.
  - unfold turn at 2. destruct (snd x) as [f d|ev].
    + rewrite IH. reflexivity.
    + destruct (is_modify_of_script script ev); rewrite IH; cbn [List.length];
        f_equal; f_equal; lia.
Qed.

(** C4: a burst of happenings on a watching process, all within one 500 ms
    window and with at least one modify event of the script, triggers exactly
    one reload.  Every modify event schedules a timeout ([n] in all) and
    clears the one before; the only timeout that runs is the last scheduled,
    500 ms after the last modify event, and its [runScript] reads the files
    as the burst left them.  Afterwards no timeout is pending. *)
Theorem burst_triggers_one_reload (p : Process) (t0 t_last : Z)
    (timeline : list (Z * Happening)) :
  alive p = Running ->
  watching p = true ->
  timers (world p) = [] ->
  now (world p) <= t0 ->
  ascending (now (world p)) timeline = true ->
  within_window t0 timeline = true ->
  last_modify script timeline = Some t_last ->
  let n := count_modify script timeline in
  let w := {| files := written timeline (files (world p));
              cached := cached (world p);
              trace_fetches := trace_fetches (world p);
              worker := worker (world p);
              now := t_last + 500;
              timers := [];
              next_timer := (next_timer (world p) + n)%nat;
              journal := journal (world p) |} in
  let p' := settle host script (run_timeline host script p timeline) in
  fired p' = fired p ++ [((next_timer (world p) + n - 1)%nat, t_last + 500)] /\
  world p' = snd (runScript host script w) /\
  timers (world p') = [].
Proof.
  intros Halive Hwatch Htimers Hnow Hasc Hwin Hlast n w p'.
  assert (Hp : p = calm p None 0 (files (world p)) (now (world p))).
  { destruct p as [[fs c tf wk nw ts nt j] sv wt ti al fi]. cbn in *. subst.
    unfold calm. cbn. now rewrite Nat.add_0_r. }
  destruct (run_timeline_calm p t0 timeline None 0%nat (files (world p)) (now (world p))
              Hasc Hwin ltac:(discriminate)) as (Hrun & Hge & Hend).
  rewrite fold_turn in Hrun, Hge. cbn [fst snd] in Hge.
  fold (last_modify script timeline) in Hrun, Hge. rewrite Hlast in Hrun, Hge.
  specialize (Hge t_last eq_refl). specialize (Hend ltac:(lia)).
  cbn [Nat.add] in Hrun. fold n in Hrun.
  rewrite <- Hp in Hrun. subst p'. rewrite Hrun.
  unfold settle, calm, fire, pending, at_fire, set_timers, set_now.
  cbn -[runScript]. rewrite Nat.eqb_refl. cbn -[runScript].
  rewrite world_of_settle_outcome, fired_of_settle_outcome.
  rewrite Z.max_r by lia. fold w.
  split; [reflexivity |]. split; [reflexivity |].
  now rewrite runScript_timers.
Qed.

End Burst.

Lemma burst_triggers_one_reload_witness :
  let p := boot Demo.online Demo.classic Demo.fresh in
  let p' := settle Demo.online Demo.classic
              (run_timeline Demo.online Demo.classic p Demo.burst) in
  fired p' = [(4%nat, 1701%Z)] /\
  worker (world p') = Some (Demo.bytes_of "v3", Script_) /\
  timers (world p') = [].
Proof.
  intros p p'.
  destruct (burst_triggers_one_reload Demo.online Demo.classic p 1000 1201 Demo.burst)
    as (H1 & H2 & H3); try reflexivity.
  - vm_compute. discriminate.
  - split; [exact H1 |]. split; [| exact H3].
    subst p'. rewrite H2. reflexivity.
Defined.

Section Reloads.

Variable host : Runtime.
Variable script : Script.

Lemma deliver_idle (p0 p : Process) (x : Z * Happening) :
  idle p0 p -> idle p0 (deliver host script p x).
Proof.
  intros (Hw & Ht & Hf & Hj & Hs & Hk & Ha).
  unfold deliver, advance. rewrite Ht. cbn [List.filter fold_left].
  destruct (alive p) eqn:E; cbn [alive with_world]; rewrite ?E;
    try (unfold idle; rewrite ?E; now repeat split).
  destruct (snd x) as [f d | ev]; cbn [watching with_world]; rewrite ?Hw;
    unfold idle; cbn; rewrite ?E; now repeat split.
Qed.

Lemma run_timeline_idle (p0 : Process) (timeline : list (Z * Happening)) :
  forall p, idle p0 p -> idle p0 (run_timeline host script p timeline).
Proof.
  unfold run_timeline.
  induction timeline as [|x rest IH]; intros p Hp; cbn [fold_left]; [exact Hp |].
  apply IH. now apply deliver_idle.
Qed.

(** C8, amended: in in-process mode [createLocalRequestServer] starts the
    execution once and installs no watcher.  Whatever happens to the files
    afterwards, no timeout runs, [runScript] and [WorkerExecution.start] are
    not called again (the journal stays as it was after the start) and
    [localRequestServer] stays the execution of the start. *)
Theorem in_process_never_reloads (w : World) (timeline : list (Z * Happening)) :
  runInProcess script = true ->
  timers w = [] ->
  let p := boot host script w in
  let p' := settle host script (run_timeline host script p timeline) in
  watching p = false /\
  journal (world p) = journal w ++ [WorkerExecutionStart (path script) (scriptType script)] /\
  fired p' = [] /\
  journal (world p') = journal (world p) /\
  server p' = server p.
Proof.
  intros Hin Ht p p'.
  assert (Hboot : watching p = false /\ timers (world p) = [] /\ fired p = [] /\
                  journal (world p)
                  = journal w ++ [WorkerExecutionStart (path script) (scriptType script)]).
  { subst p. unfold boot, createLocalRequestServer, WorkerExecution_start.
    rewrite Hin. unfold_m. cbn.
    destruct (workerExecution_start host (files w) (path script) (scriptType script));
      cbn; auto. }
  destruct Hboot as (Hw & Htp & Hf & Hj).
  assert (Hidle : idle p (run_timeline host script p timeline)).
  { apply run_timeline_idle. unfold idle. now repeat split. }
  destruct Hidle as (_ & Ht' & Hf' & Hj' & Hs' & _ & _).
  subst p'. unfold settle. rewrite Ht'. cbn [fold_left].
  rewrite Hf', Hf. now repeat split.
Qed.

(** The failure of [workerManager.run] inside [runScript]: logged, then
    [Deno.exit(1)]. *)
Lemma runScript_run_failure (w w1 : World) (scriptContents : list Byte.byte) (e : Error) :
  computeScriptContents host (path script) (scriptType script)
    (snd (consoleLog ("runScript: " +:+ path script) w)) = (Returned scriptContents, w1) ->
  workerManager_run host scriptContents (scriptType script) = Some e ->
  fst (runScript host script w) = Exited 1 /\
  journal (snd (runScript host script w)) =
  journal w1 ++ [WorkerManagerRun scriptContents (scriptType script);
                 ConsoleError "Error running script" e].
Proof.
  intros Hc Hr. unfold runScript, workerManager_run_. unfold_m. cbn in *.
  rewrite Hc, Hr. cbn. split; [reflexivity |]. now rewrite <- app_assoc.
Qed.

(** A failure to compute the contents is outside the [try] of [runScript]:
    it leaves [runScript] as an exception, and [workerManager.run] is not
    called. *)
Lemma runScript_contents_failure (w w1 : World) (e : Error) :
  computeScriptContents host (path script) (scriptType script)
    (snd (consoleLog ("runScript: " +:+ path script) w)) = (Thrown e, w1) ->
  runScript host script w = (Thrown e, w1).
Proof.
  intros Hc. unfold runScript. unfold_m. cbn in *. now rewrite Hc.
Qed.

(** C1, amended: when the timeout of the reloader runs and [workerManager.run]
    fails on the new contents, the failure is logged and the process exits
    with status 1; nothing keeps serving. *)
Theorem reload_run_failure_exits (p : Process) (timer : nat * Z) (w1 : World)
    (scriptContents : list Byte.byte) (e : Error) :
  alive p = Running ->
  pending (fst timer) (world p) = true ->
  computeScriptContents host (path script) (scriptType script)
    (snd (consoleLog ("runScript: " +:+ path script) (at_fire timer (world p))))
  = (Returned scriptContents, w1) ->
  workerManager_run host scriptContents (scriptType script) = Some e ->
  let p' := fire host script p timer in
  alive p' = ExitedWith 1 /\
  journal (world p') =
  journal w1 ++ [WorkerManagerRun scriptContents (scriptType script);
                 ConsoleError "Error running script" e] /\
  forall request, request_on host script p' request = p'.
Proof.
  intros Ha Hp Hc Hr p'.
  destruct (runScript_run_failure _ _ _ _ Hc Hr) as [Hx Hj].
  subst p'. unfold fire. rewrite Ha, Hp. cbv zeta.
  destruct (runScript host script (at_fire timer (world p))) as [o w'] eqn:E.
  cbn [fst snd] in Hx, Hj. subst o. cbn.
  split; [reflexivity |]. split; [exact Hj |]. reflexivity.
Qed.

End Reloads.

(** C1, as stated, fails: worker.js runs, then an edit arrives that the worker
    host rejects.  The reload 500 ms later logs the error and exits with
    status 1, and a request after that is not answered. *)
Lemma reload_failure_is_fatal :
  let p := boot Demo.online Demo.classic Demo.fresh in
  let p' := settle Demo.online Demo.classic
              (run_timeline Demo.online Demo.classic p Demo.bad_edit) in
  alive p = Running /\
  fired p' = [(1%nat, 1500%Z)] /\
  alive p' = ExitedWith 1 /\
  last (journal (world p'))
  = Some (ConsoleError "Error running script" "SyntaxError: Unexpected token '!'") /\
  request_on Demo.online Demo.classic p' (Demo.get "/") = p'.
Proof. vm_compute. repeat split; reflexivity. Qed.

(** ** Overlapping lookups of the external IP *)

Lemma run_lookups_snoc (schedule : list Action) (a : Action) (l : Lookups) :
  run_lookups (schedule ++ [a]) l = act (run_lookups schedule l) a.
Proof. unfold run_lookups. now rewrite fold_left_app. Qed.

(** One step on a filled cell: the cell stays filled and no fetch starts. *)
Lemma act_filled (l : Lookups) (a : Action) :
  is_Some (cell l) -> is_Some (cell (act l a)) /\ started (act l a) = started l.
Proof.
  intros [v Hv]. destruct a as [call | call net]; cbn.
  - rewrite Hv. cbn. rewrite ?Hv. split; [now exists v | reflexivity].
  - destruct (existsb (Nat.eqb call) (waiting l)); [| split; [now exists v | reflexivity]].
    destruct (fetched net); cbn; rewrite ?Hv; split; eauto.
Qed.

Lemma run_lookups_filled (schedule : list Action) : forall l,
  is_Some (cell l) ->
  is_Some (cell (run_lookups schedule l)) /\
  started (run_lookups schedule l) = started l.
Proof.
  unfold run_lookups.
  induction schedule as [|a rest IH]; intros l Hl; cbn [fold_left]; [now split |].
  destruct (act_filled l a Hl) as [H1 H2].
  destruct (IH _ H1) as [H3 H4]. split; [exact H3 | congruence].
Qed.

Lemma in_resume (call c : nat) (calls : list nat) :
  In c (resume call calls) -> In c calls.
Proof.
  induction calls as [|x rest IH]; cbn; [tauto |].
  destruct (Nat.eqb x call); cbn; tauto.
Qed.

Lemma began_on_empty_later (schedule : list Action) (a : Action) (l : Lookups)
    (call : nat) :
  began_on_empty schedule l call -> began_on_empty (schedule ++ [a]) l call.
Proof.
  intros (before & after & -> & H). exists before, (after ++ [a]).
  split; [now rewrite <- app_assoc | exact H].
Qed.

(** The calls that wait and the calls that failed began on an empty cell. *)
Lemma waiting_began_on_empty (schedule : list Action) :
  let l := run_lookups schedule no_lookups in
  (forall call, In call (waiting l) -> began_on_empty schedule no_lookups call) /\
  (forall call e, In (call, Thrown e) (finished l) ->
                  began_on_empty schedule no_lookups call).
Proof.
  induction schedule as [|a schedule IH] using rev_ind; cbn zeta.
  - cbn. split; [tauto | intros ? ? []].
  - rewrite run_lookups_snoc. cbn zeta in IH. destruct IH as [IHw IHf].
    set (l := run_lookups schedule no_lookups) in *.
    destruct a as [call | call net]; cbn [act].
    + destruct (cell l) eqn:Ec; cbn [waiting finished].
      * split.
        -- intros c Hc. apply began_on_empty_later. now apply IHw.
        -- intros c e Hin. apply in_app_or in Hin as [Hin | [Hin | []]];
             [| discriminate Hin]. apply began_on_empty_later. exact (IHf _ _ Hin).
      * split.
        -- intros c Hc. apply in_app_or in Hc as [Hc | [<- | []]].
           ++ apply began_on_empty_later. now apply IHw.
           ++ exists schedule, []. split; [reflexivity | exact Ec].
        -- intros c e Hin. apply began_on_empty_later. exact (IHf _ _ Hin).
    + destruct (existsb (Nat.eqb call) (waiting l)) eqn:Ew.
      * assert (Hcall : In call (waiting l)).
        { apply existsb_exists in Ew as (x & Hx & Hxe).
          apply Nat.eqb_eq in Hxe. now subst. }
        destruct (fetched net); cbn [waiting finished]; split.
        -- intros c Hc. apply began_on_empty_later, IHw. now apply in_resume in Hc.
        -- intros c e0 Hin. apply in_app_or in Hin as [Hin | [Hin | []]].
           ++ apply began_on_empty_later. exact (IHf _ _ Hin).
           ++ inversion Hin; subst. apply began_on_empty_later. now apply IHw.
        -- intros c Hc. apply began_on_empty_later, IHw. now apply in_resume in Hc.
        -- intros c e0 Hin. apply in_app_or in Hin as [Hin | [Hin | []]];
             [| discriminate Hin]. apply began_on_empty_later. exact (IHf _ _ Hin).
      * split.
        -- intros c Hc. apply began_on_empty_later. now apply IHw.
        -- intros c e Hin. apply began_on_empty_later. exact (IHf _ _ Hin).
Qed.

(** The call that nothing overlaps is the [memoize] of the turns of
    [handle]: same cell, same number of fetches, same end. *)
Lemma computeExternalIp_uninterrupted (host : Runtime) (w : World) (call : nat) :
  let l := run_lookups [Begin call; Settle call (fetch_trace host (trace_fetches w))]
             (lookups_of w) in
  let r := computeExternalIp host w in
  cell l = cached (snd r) /\
  started l = trace_fetches (snd r) /\
  finished l = [(call, fst r)] /\
  waiting l = [].
Proof.
  unfold computeExternalIp, memoize, fetchExternalIp, fetch_trace_text, set_cached.
  unfold_m. unfold run_lookups, lookups_of. cbn [fold_left act cell].
  destruct (cached w) as [c|] eqn:Ec; cbn.
  - rewrite Ec. now repeat split.
  - rewrite Nat.eqb_refl. cbn. unfold fetched.
    destruct (fetch_trace host (trace_fetches w)) as [e|trace]; cbn;
      [now repeat split |].
    destruct (Js.exec_ip trace); cbn; now repeat split.
Qed.

(** What the cell holds and what a call returns came out of a fetch of the
    process. *)
Lemma lookups_hold_fetched_values (schedule : list Action) :
  let l := run_lookups schedule no_lookups in
  (forall v, cell l = Some v ->
             exists call net, In (Settle call net) schedule /\ fetched net = inr v) /\
  (forall call v, In (call, Returned v) (finished l) ->
                  exists call' net, In (Settle call' net) schedule /\ fetched net = inr v).
Proof.
  induction schedule as [|a schedule IH] using rev_ind; cbn zeta.
  - cbn. split; [discriminate | intros ? ? []].
  - rewrite run_lookups_snoc. cbn zeta in IH. destruct IH as [IHc IHf].
    set (l := run_lookups schedule no_lookups) in *.
    assert (Hold : forall v,
              (exists call net, In (Settle call net) schedule /\ fetched net = inr v) ->
              exists call net, In (Settle call net) (schedule ++ [a]) /\ fetched net = inr v).
    { intros v (c & n & Hin & Hf). exists c, n. split; [| exact Hf].
      apply in_or_app. now left. }
    destruct a as [call | call net]; cbn [act].
    + destruct (cell l) as [c|] eqn:Ec; cbn [cell finished].
      * split.
        -- intros v Hv. apply Hold, IHc. congruence.
        -- intros c' v Hin. apply in_app_or in Hin as [Hin | [Hin | []]].
           ++ apply Hold. exact (IHf _ _ Hin).
           ++ inversion Hin; subst. apply Hold, IHc. reflexivity.
      * split; [discriminate |].
        intros c' v Hin. apply Hold. exact (IHf _ _ Hin).
    + destruct (existsb (Nat.eqb call) (waiting l)).
      * destruct (fetched net) as [e|rt] eqn:Ef; cbn [cell finished]; split.
        -- intros v Hv. apply Hold, IHc. exact Hv.
        -- intros c' v Hin. apply in_app_or in Hin as [Hin | [Hin | []]];
             [| discriminate Hin]. apply Hold. exact (IHf _ _ Hin).
        -- intros v Hv. inversion Hv; subst. do 2 eexists.
           split; [apply in_or_app; right; left; reflexivity | exact Ef].
        -- intros c' v Hin. apply in_app_or in Hin as [Hin | [Hin | []]].
           ++ apply Hold. exact (IHf _ _ Hin).
           ++ inversion Hin; subst. do 2 eexists.
              split; [apply in_or_app; right; left; reflexivity | exact Ef].
      * split.
        -- intros v Hv. apply Hold, IHc. exact Hv.
        -- intros c' v Hin. apply Hold. exact (IHf _ _ Hin).
Qed.

(** Two first calls overlap: each makes a fetch of its own. *)
Lemma overlapping_calls_each_fetch :
  let l := run_lookups [Begin 1; Begin 2; Settle 1 (inr Demo.trace_text);
                        Settle 2 (inr Demo.trace_text)] no_lookups in
  started l = 2%nat /\
  finished l = [(1%nat, Returned "203.0.113.7"); (2%nat, Returned "203.0.113.7")].
Proof. vm_compute. split; reflexivity. Qed.

(** The fetch of the second call settles last and fails: its request fails
    on the lookup although the cell was filled before. *)
Lemma lookup_fails_after_cell_filled :
  let before := [Begin 1; Begin 2; Settle 1 (inr Demo.trace_text)] in
  cell (run_lookups before no_lookups) = Some "203.0.113.7" /\
  finished (run_lookups (before ++ [Settle 2 (inl "connection reset")]) no_lookups)
  = [(1%nat, Returned "203.0.113.7"); (2%nat, Thrown "connection reset")].
Proof. vm_compute. split; reflexivity. Qed.

(** The fetch of the second call settles last with another address: it
    replaces the value of the cell. *)
Lemma late_fetch_overwrites_cell :
  let before := [Begin 1; Begin 2; Settle 1 (inr "ip=203.0.113.7")] in
  let l := run_lookups (before ++ [Settle 2 (inr "ip=198.51.100.9")]) no_lookups in
  cell (run_lookups before no_lookups) = Some "203.0.113.7" /\
  cell l = Some "198.51.100.9" /\
  finished l = [(1%nat, Returned "203.0.113.7"); (2%nat, Returned "198.51.100.9")].
Proof. vm_compute. repeat split; reflexivity. Qed.

(** C3, amended, for every interleaving of the calls.  Once the cell is
    filled it stays filled and no fetch is started any more; a call that
    begins on a filled cell ends at once with the value of the cell.  A fetch
    that fails leaves the cell as it was and a fetch that succeeds writes its
    value, whatever the cell held; a call that begins on an empty cell starts
    a fetch of its own, and from the start of the process a call can only
    fail if it began on an empty cell. *)
Theorem lookup_reused_once_filled (schedule : list Action) (l : Lookups) :
  (is_Some (cell l) ->
   is_Some (cell (run_lookups schedule l)) /\
   started (run_lookups schedule l) = started l) /\
  (forall before call after v,
     schedule = before ++ Begin call :: after ->
     cell (run_lookups before l) = Some v ->
     started (run_lookups (before ++ [Begin call]) l) = started (run_lookups before l) /\
     finished (run_lookups (before ++ [Begin call]) l)
     = finished (run_lookups before l) ++ [(call, Returned v)]) /\
  (forall call net e,
     fetched net = inl e -> cell (act l (Settle call net)) = cell l) /\
  (forall call net rt,
     In call (waiting l) -> fetched net = inr rt ->
     cell (act l (Settle call net)) = Some rt) /\
  (forall call,
     cell l = None ->
     started (act l (Begin call)) = S (started l) /\ In call (waiting (act l (Begin call)))) /\
  (forall call e,
     In (call, Thrown e) (finished (run_lookups schedule no_lookups)) ->
     began_on_empty schedule no_lookups call).
Proof.
  split; [apply run_lookups_filled |].
  split.
  { intros before call after v _ Hv. rewrite run_lookups_snoc. cbn. rewrite Hv.
    now split. }
  split.
  { intros call net e He. cbn. destruct (existsb _ _); [| reflexivity].
    now rewrite He. }
  split.
  { intros call net rt Hin Hf. cbn.
    assert (Hw : existsb (Nat.eqb call) (waiting l) = true).
    { apply existsb_exists. exists call. split; [exact Hin | apply Nat.eqb_refl]. }
    now rewrite Hw, Hf. }
  split.
  { intros call Hc. cbn. rewrite Hc. cbn. split; [reflexivity |].
    apply in_or_app. right. now left. }
  apply (proj2 (waiting_began_on_empty schedule)).
Qed.

(** ** The bridge *)

Section Bridge.

Variable host : Runtime.
Variable script : Script.
Variable server : LocalRequestServer.

Ltac unfold_service :=
  unfold service, service_body, computeExternalIp, memoize, fetchExternalIp,
    fetch_trace_text, Deno_upgradeWebSocket, server_fetch, respond, toRealResponse,
    set_cached.

(** One turn of [handle] never throws and never exits. *)
Lemma service_returns (request : Request) (w : World) :
  fst (service host script server request w) = Returned tt.
Proof.
  unfold_service. unfold_m.
  repeat (case_match; simplify_eq; cbn in *; try reflexivity).
Qed.

Lemma for_await_service (requests : list Request) : forall w,
  for_await requests (service host script server) w
  = (Returned tt, serviced host script server requests w).
Proof.
  induction requests as [|r rest IH]; intros w; [reflexivity |].
  cbn [for_await]. unfold bind.
  pose proof (service_returns r w) as Hr.
  destruct (service host script server r w) as [o w'] eqn:E. cbn in Hr. subst o.
  rewrite IH. unfold serviced. cbn [fold_left]. now rewrite E.
Qed.

Lemma or_undefined_some (u : string) :
  u <> EmptyString -> Js.or_undefined (Some u) = Some u.
Proof. destruct u; [contradiction | reflexivity]. Qed.

(** C5, amended: a request whose Upgrade header has a non-empty value other
    than 'websocket' is rejected with an error (logged by [handle]) before the
    executor is called and without a native upgrade handshake.  When the IP
    lookup succeeds the error is 'Unsupported upgrade'; otherwise it is the
    error of the lookup.  A request whose Upgrade header has the empty value
    is handled as a normal request: the executor is called at once, without a
    handshake, a deferred answer is an error and any other answer is
    translated and replied. *)
Theorem unsupported_upgrade_rejected (request : Request) (w : World) :
  let w' := snd (service host script server request w) in
  (forall u,
     headers_get request "upgrade" = Some u ->
     u <> EmptyString ->
     u <> "websocket" ->
     executor_calls (journal w') = executor_calls (journal w) /\
     handshakes (journal w') = handshakes (journal w) /\
     (exists e, last (journal w') = Some (ConsoleError "Error servicing request" e)) /\
     (forall ip w1, computeExternalIp host w = (Returned ip, w1) ->
        journal w' = journal w1
                     ++ [ConsoleError "Error servicing request"
                           ("Unsupported upgrade: " +:+ u)])) /\
  (headers_get request "upgrade" = Some EmptyString ->
   forall ip w1,
     computeExternalIp host w = (Returned ip, w1) ->
     let opts := {| cfConnectingIp := ip; hostname := localHostname script |} in
     exists rest,
       journal w' = journal w1 ++ ServerFetch server request opts :: rest /\
       handshakes rest = 0%nat /\
       match executor_answer host server (worker w1) request opts with
       | inl e => rest = [ConsoleError "Error servicing request" e]
       | inr res =>
           if deferred res
           then exists e, rest = [ConsoleError "Error servicing request" e]
           else exists r tail,
                  rest = RespondWith request r :: tail /\
                  replies tail = 0%nat /\
                  forall w0, match res with
                             | Native r0 => ret r0
                             | Denoflare d => toRealResponse d
                             end w0 = (Returned r, w0)
       end).
Proof.
  intros w'. subst w'. split.
  - intros u Hu Hne Hws.
    unfold service, service_body. rewrite Hu, (or_undefined_some u Hne).
    apply String.eqb_neq in Hws. rewrite Hws. cbn [negb].
    unfold computeExternalIp, memoize, fetchExternalIp, fetch_trace_text, set_cached.
    unfold_m.
    repeat (case_match; simplify_eq; cbn in * );
      unfold executor_calls, handshakes;
      rewrite ?List.filter_app, ?length_app, ?last_snoc;
      cbn; (repeat split; [lia | lia | eauto | intros; simplify_eq; reflexivity]).
  - intros Hu ip w1 Hip opts.
    unfold service, service_body. rewrite Hu. cbn [Js.or_undefined].
    unfold server_fetch, respond. unfold_m. rewrite Hip. cbn. fold opts.
    destruct (executor_answer host server (worker w1) request opts) as [e|res]; cbn.
    + eexists. rewrite <- !app_assoc. cbn. now repeat split.
    + unfold deferred, toRealResponse. unfold_m.
      repeat (case_match; simplify_eq; cbn in * );
        rewrite <- ?app_assoc; cbn;
        (eexists; split; [reflexivity |]; split; [reflexivity |]);
        first [ eexists; reflexivity
              | do 2 eexists; split; [reflexivity | split; [reflexivity | intros; reflexivity]] ].
Qed.

(** C2: on a request without an Upgrade header, a deferred response of the
    executor ends the request with an error and is never replied; a response
    of the non-deferred form is translated to a native response, which is the
    one [respondWith] gets. *)
Theorem deferred_outside_upgrade_is_error (request : Request) (w w1 : World)
    (ip : string) (res : Response) :
  headers_get request "upgrade" = None ->
  computeExternalIp host w = (Returned ip, w1) ->
  let opts := {| cfConnectingIp := ip; hostname := localHostname script |} in
  executor_answer host server (worker w1) request opts = inr res ->
  let w' := snd (service host script server request w) in
  (deferred res = true ->
   exists e,
     journal w' = journal w1 ++ [ServerFetch server request opts;
                                 ConsoleError "Error servicing request" e]) /\
  (deferred res = false ->
   exists r rest,
     journal w' = journal w1 ++ [ServerFetch server request opts;
                                 RespondWith request r] ++ rest /\
     replies rest = 0%nat /\
     forall w0, match res with
                | Native r0 => ret r0
                | Denoflare d => toRealResponse d
                end w0 = (Returned r, w0)).
Proof.
  intros Hu Hip opts Hans w'. subst w'.
  unfold service, service_body. rewrite Hu. cbn [Js.or_undefined].
  unfold server_fetch, respond. unfold_m. rewrite Hip. cbn. fold opts. rewrite Hans.
  unfold deferred, toRealResponse. unfold_m.
  split; intros Hd.
  - repeat (case_match; simplify_eq; cbn in *);
      rewrite <- ?app_assoc; cbn; eauto.
    all: try (exfalso; apply bool_decide_eq_true in Hd; destruct Hd; discriminate).
  - repeat (case_match; simplify_eq; cbn in *);
      try (apply bool_decide_eq_false in Hd; exfalso; apply Hd; eauto; fail);
      rewrite <- ?app_assoc; cbn;
      (do 2 eexists; split; [reflexivity | split; [reflexivity | intros; reflexivity]]).
Qed.

(** C6: on a WebSocket upgrade request for which the executor returns a
    deferred response, a status other than 101 ends the request with the
    error 'Bad response status', before the server socket is wired and before
    any reply; with status 101 the server socket is wired to the real socket
    and the upgrade response is sent. *)
Theorem deferred_status_is_checked (request : Request) (w w1 : World) (ip : string)
    (websocket : nat) (response : RealResponse) (d : DenoflareResponse)
    (i : ResponseInit) (cws : nat) :
  headers_get request "upgrade" = Some "websocket" ->
  computeExternalIp host w = (Returned ip, w1) ->
  upgradeWebSocket host request = inr (websocket, response) ->
  let opts := {| cfConnectingIp := ip; hostname := localHostname script |} in
  executor_answer host server (worker w1) request opts = inr (Denoflare d) ->
  init d = Some i ->
  webSocket i = Some cws ->
  let w' := snd (service host script server request w) in
  (status i <> Some 101%Z ->
   journal w' =
   journal w1 ++
     [UpgradeWebSocket request; ServerFetch server request opts;
      ConsoleError "Error servicing request"
        ("Bad response status: expected 101, found " +:+ show_status (status i))]) /\
  (status i = Some 101%Z ->
   forall serverWebsocket, getDenoflareServerWebSocket host d = Some serverWebsocket ->
   exists rest,
     journal w' =
     journal w1 ++
       [UpgradeWebSocket request; ServerFetch server request opts;
        SetRealWebsocket serverWebsocket websocket; RespondWith request response] ++ rest /\
     wirings rest = 0%nat).
Proof.
  intros Hu Hip Hup opts Hans Hi Hws w'. subst w'.
  unfold service, service_body. rewrite Hu. cbn [Js.or_undefined String.eqb negb].
  unfold Deno_upgradeWebSocket, server_fetch, respond. unfold_m.
  rewrite Hip. cbn. rewrite Hup. cbn. fold opts. rewrite Hans. cbn.
  rewrite Hi, Hws. cbn.
  split.
  - intros Hs. rewrite bool_decide_eq_false_2 by exact Hs. cbn.
    now rewrite <- !app_assoc.
  - intros Hs sws Hsws. rewrite bool_decide_eq_true_2 by exact Hs. cbn.
    rewrite Hsws. cbn.
    destruct (respondWith host request response); cbn; rewrite <- !app_assoc; cbn;
      eexists; (split; [reflexivity | reflexivity]).
Qed.

Ltac use_reply_outcome :=
  repeat match goal with
         | H : respondWith _ _ _ = _ |- _ => rewrite H
         end.

(** What a turn appends to the journal: a reply that cannot be written is
    followed by the line of the handler of [respondWith]. *)
Lemma service_logs_replies (request : Request) (w : World) :
  exists delta,
    journal (snd (service host script server request w)) = journal w ++ delta /\
    replies_logged host request delta.
Proof.
  unfold_service. unfold_m.
  repeat (case_match; simplify_eq; cbn in * );
    rewrite <- ?app_assoc; eexists; (split; [reflexivity |]); cbn;
    use_reply_outcome; auto.
Qed.

(** C7: the accept loop ends normally whatever the requests do: every
    request of every connection has its turn of [handle], in the world that
    the turns before it left, and the error of a broken connection is logged
    by the accept loop.  An exception of the body of the [try] is turned into
    one log line of that request, and a reply that cannot be written into
    the 'Error in respondWith' line, after which the turn ends normally. *)
Theorem request_errors_stay_local (conns : list Conn) (w : World) :
  fst (serve host script server conns w) = Returned tt /\
  snd (serve host script server conns w) =
  snd (consoleLog "end of cli"
         (fold_left (fun w conn =>
                       hang_up conn (serviced host script server (requests conn) w))
                    conns w)) /\
  (forall request w0 e w1,
     service_body host script server request w0 = (Thrown e, w1) ->
     service host script server request w0 =
     (Returned tt, snd (consoleError "Error servicing request" e w1))) /\
  (forall request response w0 e,
     respondWith host request response = Some e ->
     respond host request response w0 =
     (Returned tt,
      snd (consoleError "Error in respondWith" e
             (snd (emit_event (RespondWith request response) w0))))) /\
  (forall request w0,
     exists delta,
       journal (snd (service host script server request w0)) = journal w0 ++ delta /\
       replies_logged host request delta).
Proof.
  assert (Hloop : forall conns w,
    for_await conns
      (fun conn => try_catch (handle host script server conn)
                             (fun e => consoleError "Error in handle" e)) w
    = (Returned tt,
       fold_left (fun w conn =>
                    hang_up conn (serviced host script server (requests conn) w))
                 conns w)).
  { clear. induction conns as [|c rest IH]; intros w; [reflexivity |].
    cbn [for_await fold_left]. unfold bind at 1, try_catch, handle, bind at 1.
    rewrite for_await_service. unfold hang_up.
    destruct (broken c); cbn; apply IH. }
  split; [| split; [| split; [| split]]].
  - unfold serve, bind. now rewrite Hloop.
  - unfold serve, bind. now rewrite Hloop.
  - intros request w0 e w1 H. unfold service, try_catch. now rewrite H.
  - intros request response w0 e H. unfold respond. unfold_m. now rewrite H.
  - intros request w0. apply service_logs_replies.
Qed.
End Bridge.

(** ** The theorems at concrete inputs *)

Lemma script_kind_from_path_witness :
  scriptType Demo.typescript = Module_ /\
  scriptType Demo.classic = Script_ /\
  journal (snd (createLocalRequestServer Demo.online Demo.in_process Demo.fresh))
  = [WorkerExecutionStart "worker.ts" Module_] /\
  (exists rest,
     journal (snd (createLocalRequestServer Demo.online Demo.typescript Demo.fresh)) =
     [WorkerManagerStart; ConsoleLog "runScript: worker.ts"; Emit "worker.ts";
      ConsoleLog "[emit result]";
      ConsoleLog "Compiled worker.ts into module contents";
      WorkerManagerRun (Demo.bytes_of "export default {}") Module_] ++ rest) /\
  (exists rest,
     journal (snd (createLocalRequestServer Demo.online Demo.classic Demo.fresh)) =
     [WorkerManagerStart; ConsoleLog "runScript: worker.js"; ReadFile "worker.js";
      WorkerManagerRun (Demo.bytes_of "addEventListener('fetch', f)") Script_] ++ rest).
Proof.
  destruct (script_kind_from_path Demo.online Demo.typescript Demo.fresh)
    as (Hts & _ & _ & Hmod & _).
  destruct (script_kind_from_path Demo.online Demo.classic Demo.fresh)
    as (_ & Hjs & _ & _ & Hscr).
  destruct (script_kind_from_path Demo.online Demo.in_process Demo.fresh)
    as (_ & _ & Hin & _ & _).
  assert (Hnot : ~ ends_with_ts "worker.js").
  { intros H. apply endsWith_spec in H. discriminate H. }
  split; [apply Hts; exists "worker"; reflexivity |].
  split; [apply Hjs; exact Hnot |].
  split; [apply Hin; reflexivity |].
  split.
  - apply (Hmod eq_refl eq_refl (ex_intro _ "worker" eq_refl)
             {[ "deno:///bundle.js" := "export default {}" ]} eq_refl).
  - apply (Hscr eq_refl eq_refl Hnot (Demo.bytes_of "addEventListener('fetch', f)")).
    reflexivity.
Defined.

Lemma reload_run_failure_exits_witness :
  let p := run_timeline Demo.online Demo.classic
             (boot Demo.online Demo.classic Demo.fresh) Demo.bad_edit in
  alive (fire Demo.online Demo.classic p (1%nat, 1500%Z)) = ExitedWith 1.
Proof.
  intros p.
  refine (proj1 (reload_run_failure_exits Demo.online Demo.classic p (1%nat, 1500%Z)
                   (snd (computeScriptContents Demo.online "worker.js" Script_
                           (snd (consoleLog "runScript: worker.js"
                                   (at_fire (1%nat, 1500%Z) (world p))))))
                   (Demo.bytes_of "!oops") "SyntaxError: Unexpected token '!'"
                   _ _ _ _)); vm_compute; reflexivity.
Defined.

(** C8, as stated, fails: worker.ts runs in-process, the file is edited and
    the modification is reported, yet no timeout is ever pending or run,
    nothing is started again and [localRequestServer] is the execution of the
    start. *)
Lemma in_process_edit_not_reloaded :
  let p := boot Demo.online Demo.in_process Demo.fresh in
  let p' := settle Demo.online Demo.in_process
              (run_timeline Demo.online Demo.in_process p Demo.ts_edit) in
  alive p = Running /\
  server p = Some (WorkerExecution 1) /\
  timers (world (run_timeline Demo.online Demo.in_process p Demo.ts_edit)) = [] /\
  fired p' = [] /\
  journal (world p') = [WorkerExecutionStart "worker.ts" Module_] /\
  server p' = Some (WorkerExecution 1).
Proof. vm_compute. repeat split; reflexivity. Qed.

Lemma in_process_never_reloads_witness :
  let p := boot Demo.online Demo.in_process Demo.fresh in
  fired (settle Demo.online Demo.in_process
           (run_timeline Demo.online Demo.in_process p Demo.ts_edit)) = [].
Proof.
  intros p.
  destruct (in_process_never_reloads Demo.online Demo.in_process Demo.fresh Demo.ts_edit
              eq_refl eq_refl) as (_ & _ & H & _).
  exact H.
Defined.

(** C5, as stated, fails: a request with an Upgrade header whose value is
    empty, which is not 'websocket', is handled as a normal request and
    reaches the executor. *)
Lemma empty_upgrade_reaches_executor :
  let request := Demo.get_upgrade "/" EmptyString in
  let w' := snd (service Demo.online Demo.classic WorkerManager request Demo.serving) in
  headers_get request "upgrade" = Some EmptyString /\
  EmptyString <> "websocket" /\
  executor_calls (journal Demo.serving) = 0%nat /\
  executor_calls (journal w') = 1%nat /\
  replies (journal w') = 1%nat.
Proof. vm_compute. repeat split; try reflexivity. discriminate. Qed.

Lemma unsupported_upgrade_rejected_witness :
  let w' := snd (service Demo.online Demo.classic WorkerManager
                   (Demo.get_upgrade "/" "gzip") Demo.serving) in
  let empty := Demo.get_upgrade "/" EmptyString in
  (executor_calls (journal w') = 0%nat /\ handshakes (journal w') = 0%nat) /\
  exists rest,
    journal (snd (service Demo.online Demo.classic WorkerManager empty Demo.serving)) =
    journal (snd (computeExternalIp Demo.online Demo.serving)) ++
      ServerFetch WorkerManager empty
        {| cfConnectingIp := "203.0.113.7"; hostname := None |} :: rest /\
    handshakes rest = 0%nat.
Proof.
  intros w' empty.
  destruct (unsupported_upgrade_rejected Demo.online Demo.classic WorkerManager
              (Demo.get_upgrade "/" "gzip") Demo.serving) as [Hgzip _].
  destruct (unsupported_upgrade_rejected Demo.online Demo.classic WorkerManager
              empty Demo.serving) as [_ Hempty].
  split.
  - destruct (Hgzip "gzip" eq_refl ltac:(discriminate) ltac:(discriminate))
      as (H1 & H2 & _).
    split; [exact H1 | exact H2].
  - destruct (Hempty eq_refl "203.0.113.7"
                (snd (computeExternalIp Demo.online Demo.serving)) eq_refl)
      as (rest & Hj & Hh & _).
    exists rest. split; [exact Hj | exact Hh].
Defined.

(** C3, as stated, fails: without a network two requests make two fetches
    of the trace, and both fail on the lookup. *)
Lemma external_ip_fetched_twice :
  let conn := {| requests := [Demo.get "/"; Demo.get "/"]; broken := None |} in
  let w' := snd (handle Demo.offline Demo.classic WorkerManager conn Demo.fresh) in
  trace_fetches w' = 2%nat /\
  journal w' =
  [ConsoleLog "fetchExternalIp: Fetching..."; FetchTrace;
   ConsoleError "Error servicing request" "network unreachable";
   ConsoleLog "fetchExternalIp: Fetching..."; FetchTrace;
   ConsoleError "Error servicing request" "network unreachable"].
Proof. vm_compute. split; reflexivity. Qed.

Lemma lookup_reused_once_filled_witness :
  let before := [Begin 1; Begin 2; Settle 1 (inr Demo.trace_text)] in
  let schedule := before ++ [Begin 3; Settle 2 (inl "connection reset")] in
  let l := run_lookups before no_lookups in
  (is_Some (cell (run_lookups [Begin 3; Settle 2 (inl "connection reset")] l)) /\
   started (run_lookups [Begin 3; Settle 2 (inl "connection reset")] l) = 2%nat) /\
  finished (run_lookups (before ++ [Begin 3]) no_lookups)
  = [(1%nat, Returned "203.0.113.7"); (3%nat, Returned "203.0.113.7")] /\
  cell (act l (Settle 2 (inl "connection reset"))) = Some "203.0.113.7" /\
  cell (act l (Settle 2 (inr "ip=198.51.100.9"))) = Some "198.51.100.9" /\
  (started (act no_lookups (Begin 1)) = 1%nat /\
   In 1%nat (waiting (act no_lookups (Begin 1)))) /\
  began_on_empty schedule no_lookups 2.
Proof.
  intros before schedule l.
  destruct (lookup_reused_once_filled [Begin 3; Settle 2 (inl "connection reset")] l)
    as (Hkept & _ & Hfail & Hwrite & _ & _).
  destruct (lookup_reused_once_filled schedule no_lookups)
    as (_ & Hhit & _ & _ & Hmiss & Hthrown).
  split; [exact (Hkept (ex_intro _ "203.0.113.7" eq_refl)) |].
  split.
  { exact (proj2 (Hhit before 3%nat [Settle 2 (inl "connection reset")] "203.0.113.7"
                    eq_refl eq_refl)). }
  split; [exact (Hfail 2%nat (inl "connection reset") "connection reset" eq_refl) |].
  split.
  { apply (Hwrite 2%nat (inr "ip=198.51.100.9") "198.51.100.9"); [| reflexivity].
    vm_compute. left. reflexivity. }
  split; [exact (Hmiss 1%nat eq_refl) |].
  apply (Hthrown 2%nat "connection reset"). vm_compute. right. right. left. reflexivity.
Defined.

Lemma deferred_outside_upgrade_is_error_witness :
  let w := Demo.serving in
  (exists e,
     skipn 5 (journal (snd (service Demo.online Demo.classic WorkerManager
                              (Demo.get "/ws") w))) =
     [ConsoleLog "fetchExternalIp: Fetching..."; FetchTrace;
      ConsoleLog "fetchExternalIp: Determined to be 203.0.113.7";
      ServerFetch WorkerManager (Demo.get "/ws")
        {| cfConnectingIp := "203.0.113.7"; hostname := None |};
      ConsoleError "Error servicing request" e]) /\
  replies (journal (snd (service Demo.online Demo.classic WorkerManager
                           (Demo.get "/hello") w))) = 1%nat.
Proof.
  intros w.
  destruct (deferred_outside_upgrade_is_error Demo.online Demo.classic WorkerManager
              (Demo.get "/ws") w (snd (computeExternalIp Demo.online w))
              "203.0.113.7" (Denoflare (Demo.deferred_with (Some 101%Z)))
              eq_refl eq_refl eq_refl) as [Hdef _].
  destruct (deferred_outside_upgrade_is_error Demo.online Demo.classic WorkerManager
              (Demo.get "/hello") w (snd (computeExternalIp Demo.online w))
              "203.0.113.7" (Denoflare Demo.plain_denoflare)
              eq_refl eq_refl eq_refl) as [_ Hplain].
  split.
  - destruct (Hdef eq_refl) as [e He]. exists e. rewrite He. reflexivity.
  - destruct (Hplain eq_refl) as (r & rest & Hj & Hr & _). rewrite Hj.
    unfold replies in *. rewrite !List.filter_app, !length_app, Hr. reflexivity.
Defined.

Lemma deferred_status_is_checked_witness :
  let w := Demo.serving in
  wirings (journal (snd (service Demo.online Demo.classic WorkerManager
                           (Demo.get_upgrade "/ws200" "websocket") w))) = 0%nat /\
  replies (journal (snd (service Demo.online Demo.classic WorkerManager
                           (Demo.get_upgrade "/ws200" "websocket") w))) = 0%nat /\
  wirings (journal (snd (service Demo.online Demo.classic WorkerManager
                           (Demo.get_upgrade "/ws" "websocket") w))) = 1%nat.
Proof.
  intros w.
  destruct (deferred_status_is_checked Demo.online Demo.classic WorkerManager
              (Demo.get_upgrade "/ws200" "websocket") w
              (snd (computeExternalIp Demo.online w)) "203.0.113.7" 7%nat
              Demo.switching_protocols (Demo.deferred_with (Some 200%Z))
              {| status := Some 200%Z; webSocket := Some 3%nat |} 3%nat
              eq_refl eq_refl eq_refl eq_refl eq_refl eq_refl) as [Hbad _].
  destruct (deferred_status_is_checked Demo.online Demo.classic WorkerManager
              (Demo.get_upgrade "/ws" "websocket") w
              (snd (computeExternalIp Demo.online w)) "203.0.113.7" 7%nat
              Demo.switching_protocols (Demo.deferred_with (Some 101%Z))
              {| status := Some 101%Z; webSocket := Some 3%nat |} 3%nat
              eq_refl eq_refl eq_refl eq_refl eq_refl eq_refl) as [_ Hgood].
  rewrite (Hbad ltac:(discriminate)).
  destruct (Hgood eq_refl 3%nat eq_refl) as (rest & Hj & Hr). rewrite Hj.
  split; [reflexivity |]. split; [reflexivity |].
  unfold wirings in *. rewrite !List.filter_app, !length_app, Hr. reflexivity.
Defined.

Lemma request_errors_stay_local_witness :
  let conns := [ {| requests := [Demo.get "/throw"; Demo.get "/"];
                    broken := Some "connection reset" |};
                 {| requests := [Demo.get "/"]; broken := None |} ] in
  fst (serve Demo.online Demo.classic WorkerManager conns Demo.serving) = Returned tt /\
  replies (journal (snd (serve Demo.online Demo.classic WorkerManager conns Demo.serving)))
  = 2%nat /\
  last (journal (snd (service Demo.online Demo.classic WorkerManager
                        (Demo.get "/throw") Demo.serving)))
  = Some (ConsoleError "Error servicing request" "script threw") /\
  respond Cases.broken_pipe (Demo.get "/") Demo.ok_response Demo.serving =
  (Returned tt,
   snd (consoleError "Error in respondWith" "Broken pipe"
          (snd (emit_event (RespondWith (Demo.get "/") Demo.ok_response) Demo.serving)))).
Proof.
  intros conns.
  destruct (request_errors_stay_local Demo.online Demo.classic WorkerManager conns
              Demo.serving) as (H1 & H2 & H3 & _).
  destruct (request_errors_stay_local Cases.broken_pipe Demo.classic WorkerManager []
              Demo.serving) as (_ & _ & _ & H4 & _).
  split; [exact H1 |]. split; [rewrite H2; reflexivity |].
  split; [| exact (H4 (Demo.get "/") Demo.ok_response Demo.serving "Broken pipe" eq_refl)].
  rewrite (H3 (Demo.get "/throw") Demo.serving "script threw"
              (snd (service_body Demo.online Demo.classic WorkerManager
                      (Demo.get "/throw") Demo.serving)) eq_refl).
  reflexivity.
Defined.

(** * Further properties of the program *)

(** ** The trace pattern of [fetchExternalIp] *)

Lemma append_cons (a : ascii) (p r : string) :
  String a p +:+ r = String a (p +:+ r).
Proof. reflexivity. Qed.

Lemma append_nil (r : string) : EmptyString +:+ r = r.
Proof. reflexivity. Qed.

Lemma prefix_spec (p : string) : forall s,
  String.prefix p s = true <-> exists rest, s = p +:+ rest.
Proof.
  induction p as [|a p IH]; intros s.
  - split; [intros _; now exists s | intros _; destruct s; reflexivity].
  - destruct s as [|b s]; [split; [discriminate | intros [rest H]; discriminate H] |].
    cbn. destruct (ascii_dec a b) as [->|Hne].
    + rewrite IH. split; intros [rest H]; exists rest.
      * now rewrite append_cons, <- H.
      * rewrite append_cons in H. now inversion H.
    + split; [discriminate |]. intros [rest H]. rewrite append_cons in H.
      inversion H. congruence.
Qed.

Lemma non_space_run_spec (s : string) :
  exists post,
    s = Js.non_space_run s +:+ post /\
    all_chars (fun c => negb (Js.is_space c)) (Js.non_space_run s) = true /\
    at_space_or_end post = true.
Proof.
  induction s as [|c s (post & H1 & H2 & H3)]; cbn [Js.non_space_run].
  - now exists EmptyString.
  - destruct (Js.is_space c) eqn:E.
    + exists (String c s). rewrite append_nil. cbn. now rewrite E.
    + exists post. rewrite append_cons, <- H1. cbn. rewrite E, H2. now repeat split.
Qed.

Lemma exec_ip_unfold (trace : string) :
  Js.exec_ip trace =
  if String.prefix "ip=" trace then Some (Js.non_space_run (Js.drop 3 trace))
  else match trace with
       | EmptyString => None
       | String _ rest => Js.exec_ip rest
       end.
Proof. destruct trace; reflexivity. Qed.

(** The pattern fails exactly on the texts in which [ip=] does not occur. *)
Lemma exec_ip_none (trace : string) :
  Js.exec_ip trace = None <-> ~ occurs "ip=" trace.
Proof.
  induction trace as [|c trace IH]; rewrite exec_ip_unfold.
  - cbn. split; [| reflexivity]. intros _ (pre & post & H).
    destruct pre; discriminate H.
  - destruct (String.prefix "ip=" (String c trace)) eqn:E.
    + split; [discriminate |]. intros H. exfalso. apply H.
      apply prefix_spec in E as [rest E]. exists EmptyString, rest. exact E.
    + rewrite IH. split; intros H (pre & post & Hocc); apply H.
      * destruct pre as [|a pre].
        -- exfalso. assert (String.prefix "ip=" (String c trace) = true) as E'.
           { apply prefix_spec. exists post. exact Hocc. }
           congruence.
        -- exists pre, post. rewrite append_cons in Hocc. now inversion Hocc.
      * exists (String c pre), post. now rewrite append_cons, <- Hocc.
Qed.

(** The capture is what follows the leftmost [ip=], up to the next space or
    the end. *)
Lemma exec_ip_some (trace ip : string) :
  Js.exec_ip trace = Some ip ->
  exists pre post,
    trace = pre +:+ "ip=" +:+ ip +:+ post /\
    ~ occurs "ip=" (pre +:+ "ip") /\
    all_chars (fun c => negb (Js.is_space c)) ip = true /\
    at_space_or_end post = true.
Proof.
  revert ip. induction trace as [|c trace IH]; intros ip; rewrite exec_ip_unfold.
  - cbn. discriminate.
  - destruct (String.prefix "ip=" (String c trace)) eqn:E.
    + intros H. apply prefix_spec in E as [rest E]. rewrite E in H |- *.
      change (Js.drop 3 ("ip=" +:+ rest)) with rest in H.
      inversion H as [Hip]. clear H.
      destruct (non_space_run_spec rest) as (post & H1 & H2 & H3).
      exists EmptyString, post. split; [| split; [| split; assumption]].
      * rewrite append_nil. rewrite H1 at 1. reflexivity.
      * intros (pre' & post' & Hocc). rewrite append_nil in Hocc.
        destruct pre' as [|? [|? [|? ?]]]; discriminate Hocc.
    + intros H. destruct (IH ip H) as (pre & post & H1 & H2 & H3 & H4).
      exists (String c pre), post. split; [| split; [| split; assumption]].
      * now rewrite append_cons, <- H1.
      * intros (pre' & post' & Hocc). rewrite append_cons in Hocc.
        destruct pre' as [|a pre'].
        -- assert (String.prefix "ip=" (String c trace) = true) as E'; [| congruence].
           apply prefix_spec. rewrite H1.
           rewrite append_nil in Hocc.
           destruct pre as [|p1 [|p2 pre]]; inversion Hocc; subst.
           eexists; reflexivity.
        -- apply H2. exists pre', post'. rewrite append_cons in Hocc. now inversion Hocc.
Qed.

(** X1: when the trace URL answers with a text, [fetchExternalIp] throws its
    'Unexpected trace' error exactly when [ip=] occurs nowhere in the text. *)
Theorem fetchExternalIp_fails_without_ip (host : Runtime) (w : World) (trace : string) :
  fetch_trace host (trace_fetches w) = inr trace ->
  fst (fetchExternalIp host w)
  = Thrown ("computeExternalIp: Unexpected trace: " +:+ trace)
  <-> ~ occurs "ip=" trace.
Proof.
  intros Ht. rewrite <- exec_ip_none.
  unfold fetchExternalIp, fetch_trace_text. unfold_m. cbn. rewrite Ht. cbn.
  destruct (Js.exec_ip trace); cbn; split; congruence.
Qed.

(** X2: the IP that [fetchExternalIp] returns is the text between the
    leftmost [ip=] of the trace and the next space (or the end): it holds no
    space, and it may be empty. *)
Theorem fetchExternalIp_returns_token (host : Runtime) (w : World) (trace ip : string) :
  fetch_trace host (trace_fetches w) = inr trace ->
  fst (fetchExternalIp host w) = Returned ip ->
  exists pre post,
    trace = pre +:+ "ip=" +:+ ip +:+ post /\
    ~ occurs "ip=" (pre +:+ "ip") /\
    all_chars (fun c => negb (Js.is_space c)) ip = true /\
    at_space_or_end post = true.
Proof.
  intros Ht. unfold fetchExternalIp, fetch_trace_text. unfold_m. cbn. rewrite Ht. cbn.
  destruct (Js.exec_ip trace) as [found|] eqn:E; cbn; [| discriminate].
  intros H. inversion H; subst. now apply exec_ip_some.
Qed.

(** ** The callbacks of the in-process execution *)

Lemma last_of_cons {A} (x : A) (l : list A) : exists y, last (x :: l) = Some y.
Proof.
  revert x. induction l as [|z l IH]; intros x; [now exists x |].
  destruct (IH z) as [y Hy]. exists y. exact Hy.
Qed.

Lemma after_calls_objects (credential : Credential) (calls : list CallbackCall) :
  forall c,
    objects (after_calls credential calls c) =
    match last (reported calls) with
    | Some i =>
        Some {| construction :=
                  (constructions c + List.length (reported calls) - 1)%nat;
                built_from := i |}
    | None => objects c
    end.
Proof.
  unfold after_calls.
  induction calls as [|call rest IH]; intros c; cbn [fold_left]; [reflexivity |].
  rewrite IH. destruct call; cbn [callback fst reported];
    try reflexivity;
    try (destruct (objects c) eqn:Eo; cbn [fst]; rewrite ?Eo; reflexivity).
  cbn [constructions objects].
  destruct (reported rest) as [|i rest'] eqn:E.
  - cbn. do 2 f_equal. lia.
  - destruct (last_of_cons i rest') as [y Hy].
    change (last (moduleWorkerInfo :: i :: rest')) with (last (i :: rest')).
    rewrite Hy. do 2 f_equal. cbn [List.length]. lia.
Qed.

(** X3: whatever the execution called before, [doNamespaceProvider] answers
    with the unimplemented stub exactly while no module info was reported;
    after that it resolves the namespace in the registry built from the most
    recent report. *)
Theorem doNamespaceProvider_uses_latest_info (credential : Credential)
    (before : list CallbackCall) (doNamespace : string) :
  snd (callback credential (after_calls credential before fresh_closure)
         (DoNamespaceProvider doNamespace)) =
  Namespace
    match last (reported before) with
    | None => UnimplementedDurableObjectNamespace doNamespace
    | Some i =>
        ResolveDoNamespace
          {| construction := (List.length (reported before) - 1)%nat; built_from := i |}
          doNamespace
    end.
Proof.
  cbn [callback]. rewrite after_calls_objects. cbn [constructions objects fresh_closure].
  destruct (last (reported before)); reflexivity.
Qed.

(** ** More on the bridge *)

Section Turns.
Variable host : Runtime.
Variable script : Script.
Variable server : LocalRequestServer.

Ltac unfold_turn :=
  unfold service, service_body, computeExternalIp, memoize, fetchExternalIp,
    fetch_trace_text, Deno_upgradeWebSocket, server_fetch, respond, toRealResponse,
    set_cached;
  unfold_m.

(** In a journal that is in order, a call of the executor precedes every
    reply. *)
Lemma in_order_reply (delta : list Event) : forall called shaken pre rq r post,
  in_order called shaken delta = true ->
  delta = pre ++ RespondWith rq r :: post ->
  called = true \/ (1 <= executor_calls pre)%nat.
Proof.
  induction delta as [|ev rest IH]; intros called shaken pre rq r post Hin Hd.
  - destruct pre; discriminate Hd.
  - destruct pre as [|x pre].
    + cbn in Hd. inversion Hd; subst. cbn in Hin.
      apply andb_prop in Hin as [Hc _]. now left.
    + cbn in Hd. inversion Hd; subst x rest.
      destruct ev; cbn in Hin;
        try (destruct (IH _ _ _ _ _ _ Hin eq_refl) as [Hc | Hn];
             [now left | right; exact Hn]).
      * right. unfold executor_calls. cbn. lia.
      * apply andb_prop in Hin as [Hin Hin'].
        apply andb_prop in Hin as [Hc _]. now left.
      * apply andb_prop in Hin as [Hc _]. now left.
Qed.

(** In a journal that is in order, a call of the executor and a handshake
    precede every wiring. *)
Lemma in_order_wiring (delta : list Event) : forall called shaken pre s ws post,
  in_order called shaken delta = true ->
  delta = pre ++ SetRealWebsocket s ws :: post ->
  (called = true \/ (1 <= executor_calls pre)%nat) /\
  (shaken = true \/ (1 <= handshakes pre)%nat).
Proof.
  induction delta as [|ev rest IH]; intros called shaken pre s ws post Hin Hd.
  - destruct pre; discriminate Hd.
  - destruct pre as [|x pre].
    + cbn in Hd. inversion Hd; subst. cbn in Hin.
      apply andb_prop in Hin as [Hin _]. apply andb_prop in Hin as [Hc Hs].
      split; now left.
    + cbn in Hd. inversion Hd; subst x rest.
      destruct ev; cbn in Hin;
        try (destruct (IH _ _ _ _ _ _ Hin eq_refl) as [[Hc | Hn] [Hs | Hm]];
             split; solve [now left | right; assumption]).
      * destruct (IH _ _ _ _ _ _ Hin eq_refl) as [[Hc | Hn] _];
          (split; [| right; unfold handshakes; cbn; lia]);
          [now left | right; exact Hn].
      * destruct (IH _ _ _ _ _ _ Hin eq_refl) as [_ [Hs | Hm]];
          (split; [right; unfold executor_calls; cbn; lia |]);
          [now left | right; exact Hm].
      * apply andb_prop in Hin as [Hin Hin'].
        apply andb_prop in Hin as [Hc Hs]. split; now left.
      * apply andb_prop in Hin as [Hc Hin'].
        destruct (IH _ _ _ _ _ _ Hin' eq_refl) as [_ [Hs | Hm]];
          (split; [now left |]); [now left | right; exact Hm].
Qed.

Lemma executor_calls_prefix (pre post : list Event) :
  (executor_calls pre <= executor_calls (pre ++ post))%nat.
Proof. unfold executor_calls. rewrite List.filter_app, length_app. lia. Qed.

Lemma handshakes_prefix (pre post : list Event) :
  (handshakes pre <= handshakes (pre ++ post))%nat.
Proof. unfold handshakes. rewrite List.filter_app, length_app. lia. Qed.

(** What a turn appends is in order. *)
Lemma service_in_order (request : Request) (w : World) :
  exists delta,
    journal (snd (service host script server request w)) = journal w ++ delta /\
    (executor_calls delta <= 1)%nat /\
    (handshakes delta <= 1)%nat /\
    (replies delta <= executor_calls delta)%nat /\
    (wirings delta <= handshakes delta)%nat /\
    (wirings delta <= executor_calls delta)%nat /\
    in_order false false delta = true.
Proof.
  unfold_turn.
  repeat (case_match; simplify_eq; cbn in * );
    rewrite <- ?app_assoc; eexists; (split; [reflexivity |]); cbn;
    repeat split; lia.
Qed.

(** X4: one turn of [handle] only appends to the journal, and what it
    appends holds at most one call of the executor and at most one native
    handshake.  A reply comes only after the call of the executor, and a
    server socket is wired only after the handshake and the call of the
    executor: in what is appended, exactly one call precedes every reply, and
    exactly one handshake and one call precede every wiring. *)
Theorem service_acts_at_most_once (request : Request) (w : World) :
  exists delta,
    journal (snd (service host script server request w)) = journal w ++ delta /\
    (executor_calls delta <= 1)%nat /\
    (handshakes delta <= 1)%nat /\
    (replies delta <= executor_calls delta)%nat /\
    (wirings delta <= handshakes delta)%nat /\
    (wirings delta <= executor_calls delta)%nat /\
    (forall pre rq r post,
       delta = pre ++ RespondWith rq r :: post -> executor_calls pre = 1%nat) /\
    (forall pre s ws post,
       delta = pre ++ SetRealWebsocket s ws :: post ->
       handshakes pre = 1%nat /\ executor_calls pre = 1%nat).
Proof.
  destruct (service_in_order request w) as (delta & Hj & Hc & Hh & Hr & Hw & Hw' & Ho).
  exists delta. repeat (split; [assumption |]). split.
  - intros pre rq r post Hd.
    destruct (in_order_reply delta _ _ _ _ _ _ Ho Hd) as [Hf | Hn]; [discriminate |].
    pose proof (executor_calls_prefix pre (RespondWith rq r :: post)) as Hp.
    rewrite <- Hd in Hp. lia.
  - intros pre s ws post Hd.
    destruct (in_order_wiring delta _ _ _ _ _ _ Ho Hd) as [[Hf | Hn] [Hf' | Hm]];
      try discriminate.
    pose proof (executor_calls_prefix pre (SetRealWebsocket s ws :: post)) as Hp.
    pose proof (handshakes_prefix pre (SetRealWebsocket s ws :: post)) as Hp'.
    rewrite <- Hd in Hp, Hp'. lia.
Qed.

(** X5: a request never touches the files, the script that the worker host
    runs, the pending timeouts or the clock: only the IP cell, the count of
    fetches and the journal change. *)
Theorem service_leaves_the_run_alone (request : Request) (w : World) :
  let w' := snd (service host script server request w) in
  files w' = files w /\ worker w' = worker w /\ timers w' = timers w /\
  next_timer w' = next_timer w /\ now w' = now w.
Proof.
  unfold_turn.
  repeat (case_match; simplify_eq; cbn in * ); repeat split; reflexivity.
Qed.


(** X7: on a WebSocket upgrade request the reply is the response of the
    native handshake.  When the executor answers with a response of the
    non-deferred form, that response is dropped: the handshake response is
    sent all the same and no server socket is wired. *)
Theorem upgrade_reply_is_the_handshake_response (request : Request) (w w1 : World)
    (ip : string) (websocket : nat) (response : RealResponse) (res : Response) :
  headers_get request "upgrade" = Some "websocket" ->
  computeExternalIp host w = (Returned ip, w1) ->
  upgradeWebSocket host request = inr (websocket, response) ->
  let opts := {| cfConnectingIp := ip; hostname := localHostname script |} in
  executor_answer host server (worker w1) request opts = inr res ->
  deferred res = false ->
  exists rest,
    journal (snd (service host script server request w)) =
    journal w1 ++
      [UpgradeWebSocket request; ServerFetch server request opts;
       RespondWith request response] ++ rest /\
    replies rest = 0%nat /\ wirings rest = 0%nat.
Proof.
  intros Hu Hip Hup opts Hans Hd.
  unfold service, service_body. rewrite Hu. cbn [Js.or_undefined String.eqb negb].
  unfold Deno_upgradeWebSocket, server_fetch, respond. unfold_m.
  rewrite Hip. cbn. rewrite Hup. cbn. fold opts. rewrite Hans. cbn.
  unfold deferred in Hd.
  repeat (case_match; simplify_eq; cbn in * );
    try (apply bool_decide_eq_false in Hd; exfalso; apply Hd; eauto; fail);
    rewrite <- ?app_assoc; cbn; eexists; (split; [reflexivity |]); now split.
Qed.

(** X8: when the native handshake of an upgrade request throws, the request
    ends there: one log line, no call of the executor. *)
Theorem failed_handshake_skips_executor (request : Request) (w w1 : World)
    (ip : string) (e : Error) :
  headers_get request "upgrade" = Some "websocket" ->
  computeExternalIp host w = (Returned ip, w1) ->
  upgradeWebSocket host request = inl e ->
  journal (snd (service host script server request w)) =
  journal w1 ++ [UpgradeWebSocket request; ConsoleError "Error servicing request" e].
Proof.
  intros Hu Hip Hup.
  unfold service, service_body. rewrite Hu. cbn [Js.or_undefined String.eqb negb].
  unfold Deno_upgradeWebSocket. unfold_m.
  rewrite Hip. cbn. rewrite Hup. cbn. now rewrite <- !app_assoc.
Qed.

(** X9: a deferred response with status 101 whose socket is not a server
    socket ends the request with 'Bad response: expected websocket'; nothing
    is wired and nothing is replied. *)
Theorem deferred_without_server_socket_fails (request : Request) (w w1 : World)
    (ip : string) (websocket : nat) (response : RealResponse) (d : DenoflareResponse)
    (i : ResponseInit) (cws : nat) :
  headers_get request "upgrade" = Some "websocket" ->
  computeExternalIp host w = (Returned ip, w1) ->
  upgradeWebSocket host request = inr (websocket, response) ->
  let opts := {| cfConnectingIp := ip; hostname := localHostname script |} in
  executor_answer host server (worker w1) request opts = inr (Denoflare d) ->
  init d = Some i ->
  webSocket i = Some cws ->
  status i = Some 101%Z ->
  getDenoflareServerWebSocket host d = None ->
  journal (snd (service host script server request w)) =
  journal w1 ++
    [UpgradeWebSocket request; ServerFetch server request opts;
     ConsoleError "Error servicing request" "Bad response: expected websocket"].
Proof.
  intros Hu Hip Hup opts Hans Hi Hws Hs Hsws.
  unfold service, service_body. rewrite Hu. cbn [Js.or_undefined String.eqb negb].
  unfold Deno_upgradeWebSocket, server_fetch, respond. unfold_m.
  rewrite Hip. cbn. rewrite Hup. cbn. fold opts. rewrite Hans. cbn.
  rewrite Hi, Hws. cbn. rewrite bool_decide_eq_true_2 by exact Hs. cbn.
  rewrite Hsws. cbn. now rewrite <- !app_assoc.
Qed.

(** X10: when the executor throws on a request, the client gets no reply at
    all; on a request that is not an upgrade the journal gains the call and
    one 'Error servicing request' line with the error of the executor. *)
Theorem executor_failure_gets_no_reply (request : Request) (w w1 : World)
    (ip : string) (e : Error) :
  computeExternalIp host w = (Returned ip, w1) ->
  let opts := {| cfConnectingIp := ip; hostname := localHostname script |} in
  executor_answer host server (worker w1) request opts = inl e ->
  let w' := snd (service host script server request w) in
  replies (journal w') = replies (journal w1) /\
  (Js.or_undefined (headers_get request "upgrade") = None ->
   journal w' =
   journal w1 ++ [ServerFetch server request opts;
                  ConsoleError "Error servicing request" e]).
Proof.
  intros Hip opts Hans w'. subst w' opts.
  unfold service, service_body, Deno_upgradeWebSocket, server_fetch, respond.
  unfold_m. rewrite Hip. cbn. rewrite ?Hans.
  repeat (case_match; simplify_eq; cbn in *; rewrite ?Hans in * );
    simplify_eq; cbn;
    unfold replies; rewrite <- ?app_assoc, ?List.filter_app, ?length_app; cbn;
    (split; [lia | try discriminate; intros _; reflexivity]).
Qed.

(** X11: a reply that cannot be written is logged as 'Error in respondWith'
    by the handler of [respondWith] itself; the turn ends normally and no
    'Error servicing request' line is written. *)
Theorem reply_failure_is_logged (request : Request) (w w1 : World)
    (ip : string) (r : RealResponse) (e : Error) :
  Js.or_undefined (headers_get request "upgrade") = None ->
  computeExternalIp host w = (Returned ip, w1) ->
  let opts := {| cfConnectingIp := ip; hostname := localHostname script |} in
  executor_answer host server (worker w1) request opts = inr (Native r) ->
  respondWith host request r = Some e ->
  service host script server request w =
  (Returned tt,
   snd (consoleError "Error in respondWith" e
          (snd (emit_event (RespondWith request r)
                  (snd (emit_event (ServerFetch server request opts) w1)))))).
Proof.
  intros Hu Hip opts Hans Hr. subst opts.
  unfold service, service_body. rewrite Hu.
  unfold server_fetch, respond. unfold_m. rewrite Hip. cbn. rewrite Hans. cbn.
  rewrite Hr. reflexivity.
Qed.

(** X12: the executor is only ever called on [localRequestServer], for the
    request of the turn, with the value that the IP lookup of this turn
    returned as cfConnectingIp and the local hostname of the script; and
    however the lookups of the process overlap, a value that a lookup returns
    is the token that [fetchExternalIp] took from the trace of one of the
    fetches. *)
Theorem executor_gets_the_looked_up_ip (request : Request) (w w1 : World) (ip : string) :
  (computeExternalIp host w = (Returned ip, w1) ->
   exists delta,
     journal (snd (service host script server request w)) = journal w1 ++ delta /\
     Forall (carries script server ip request) delta) /\
  (forall schedule call v,
     In (call, Returned v) (finished (run_lookups schedule no_lookups)) ->
     exists call' trace,
       In (Settle call' (inr trace)) schedule /\ Js.exec_ip trace = Some v).
Proof.
  split.
  - intros Hip.
    unfold service, service_body, Deno_upgradeWebSocket, server_fetch, respond,
      toRealResponse.
    unfold_m. rewrite Hip. cbn.
    repeat (case_match; simplify_eq; cbn in * );
      rewrite <- ?app_assoc; eexists; (split; [reflexivity |]);
      repeat constructor.
  - intros schedule call v Hin.
    destruct (proj2 (lookups_hold_fetched_values schedule) _ _ Hin)
      as (call' & net & Hs & Hf).
    unfold fetched in Hf. destruct net as [e|trace]; [discriminate |].
    destruct (Js.exec_ip trace) as [x|] eqn:Ex; [| discriminate].
    exists call', trace. split; [exact Hs | congruence].
Qed.
End Turns.

(** ** More on the hot reloader *)

Section Keeps.
Variable host : Runtime.
Variable script : Script.

Lemma advanced_same (k : nat) (p : Process) : tidy p -> advanced k p p.
Proof.
  intros H. split; [exact H |]. exists []. rewrite app_nil_r. split; [reflexivity | cbn; lia].
Qed.

Lemma advanced_refl (p : Process) : tidy p -> advanced 0 p p.
Proof. apply advanced_same. Qed.

Lemma advanced_trans (j k : nat) (p q r : Process) :
  advanced j p q -> advanced k q r -> advanced (j + k) p r.
Proof.
  intros (_ & m1 & Hf1 & Hl1) (Ht & m2 & Hf2 & Hl2).
  split; [exact Ht |]. exists (m1 ++ m2). rewrite Hf2, Hf1, <- app_assoc.
  split; [reflexivity |]. rewrite length_app. lia.
Qed.

Lemma fire_advanced (p : Process) (timer : nat * Z) :
  tidy p -> advanced 0 p (fire host script p timer).
Proof.
  intros Ht. unfold fire.
  destruct (alive p) eqn:Ea; try (now apply advanced_refl).
  destruct (pending (fst timer) (world p)) eqn:Ep; [| now apply advanced_refl].
  destruct Ht as [Hnil | (i & d & Hone & Hid)].
  - unfold pending in Ep. rewrite Hnil in Ep. discriminate.
  - unfold pending in Ep. rewrite Hone in Ep. cbn in Ep. rewrite orb_false_r in Ep.
    assert (Hw : timers (at_fire timer (world p)) = []).
    { unfold at_fire, set_timers, set_now. cbn. rewrite Hone. cbn. now rewrite Ep. }
    split.
    + left. rewrite world_of_settle_outcome, runScript_timers. exact Hw.
    + eexists. rewrite fired_of_settle_outcome. cbn [fired with_fired].
      split; [reflexivity |].
      rewrite world_of_settle_outcome, runScript_timers, Hw, Hone. cbn. lia.
Qed.

Lemma fold_fire_advanced (due : list (nat * Z)) : forall p,
  tidy p -> advanced 0 p (fold_left (fire host script) due p).
Proof.
  induction due as [|t rest IH]; intros p Hp; cbn [fold_left].
  - now apply advanced_refl.
  - pose proof (fire_advanced p t Hp) as H1.
    apply (advanced_trans 0 0 _ _ _ H1). apply IH. exact (proj1 H1).
Qed.

Lemma deliver_advanced (p : Process) (x : Z * Happening) :
  tidy p ->
  advanced (if is_modify_happening script x then 1 else 0) p (deliver host script p x).
Proof.
  intros Hp. unfold deliver.
  assert (Ha : advanced 0 p (advance host script (fst x) p)).
  { unfold advance.
    pose proof (fold_fire_advanced
                  (List.filter (fun timer => Z.leb (snd timer) (fst x)) (timers (world p)))
                  p Hp) as H.
    destruct (alive (fold_left _ _ p)); exact H. }
  set (q := advance host script (fst x) p) in *.
  apply (advanced_trans 0 _ _ _ _ Ha). destruct Ha as (Hq & _).
  unfold is_modify_happening.
  destruct (alive q) eqn:Ea; try (now apply advanced_same).
  destruct (snd x) as [f data | ev].
  - split; [exact Hq |]. exists []. rewrite app_nil_r. split; [reflexivity | cbn; lia].
  - destruct (watching q) eqn:Ew; [| now apply advanced_same].
    unfold on_event. destruct (is_modify_of_script script ev) eqn:Em.
    + assert (Hclr : timers (snd (clearTimeout (timeoutId q) (world q))) = []).
      { destruct Hq as [Hnil | (i & d & Hone & Hid)].
        - destruct (timeoutId q); cbn; [now rewrite Hnil | exact Hnil].
        - rewrite Hid. cbn. rewrite Hone. cbn. now rewrite Nat.eqb_refl. }
      unfold_m.
      destruct (clearTimeout (timeoutId q) (world q)) as [[[]|e|c] w1] eqn:Ec;
        try (destruct (timeoutId q); discriminate Ec).
      cbn in Hclr. unfold setTimeout. cbn. rewrite Hclr. cbn.
      split.
      * right. eexists _, _. cbn. split; reflexivity.
      * exists []. rewrite app_nil_r. cbn. split; [reflexivity | lia].
    + cbn. split; [exact Hq |]. exists []. rewrite app_nil_r. cbn.
      split; [reflexivity | lia].
Qed.

Lemma run_timeline_advanced (timeline : list (Z * Happening)) : forall p,
  tidy p ->
  advanced (count_modify script timeline) p (run_timeline host script p timeline).
Proof.
  unfold run_timeline, count_modify.
  induction timeline as [|x rest IH]; intros p Hp; cbn [fold_left List.filter].
  - now apply advanced_refl.
  - pose proof (deliver_advanced p x Hp) as H1.
    pose proof (IH _ (proj1 H1)) as H2.
    pose proof (advanced_trans _ _ _ _ _ H1 H2) as H3.
    unfold is_modify_happening in H3.
    destruct (snd x) as [? ?|ev]; [exact H3 |].
    destruct (is_modify_of_script script ev); exact H3.
Qed.

(** X13: a process that starts without a pending timeout never has more
    than one restart pending, whatever happens to the files and whatever the
    watcher reports. *)
Theorem at_most_one_restart_pending (p : Process) (timeline : list (Z * Happening)) :
  timers (world p) = [] ->
  (List.length (timers (world (run_timeline host script p timeline))) <= 1)%nat.
Proof.
  intros Hp.
  destruct (run_timeline_advanced timeline p (or_introl Hp)) as ([Hnil | (i & d & Hone & _)] & _).
  - rewrite Hnil. cbn. lia.
  - rewrite Hone. cbn. lia.
Qed.

(** X14: reloads only follow modify events of the script: over any
    timeline, the timeouts that run are at most as many as the modify events
    of the script in it; without such an event nothing is reloaded. *)
Theorem reloads_bounded_by_modify_events (p : Process) (timeline : list (Z * Happening)) :
  timers (world p) = [] ->
  exists more,
    fired (settle host script (run_timeline host script p timeline)) = fired p ++ more /\
    (List.length more <= count_modify script timeline)%nat.
Proof.
  intros Hp.
  pose proof (run_timeline_advanced timeline p (or_introl Hp)) as H1.
  pose proof (fold_fire_advanced (timers (world (run_timeline host script p timeline)))
                _ (proj1 H1)) as H2.
  destruct (advanced_trans _ _ _ _ _ H1 H2) as (_ & more & Hf & Hl).
  exists more. split; [exact Hf |]. rewrite Hp in Hl. cbn in Hl. lia.
Qed.

Open Scope Z_scope.

Lemma turn_last (last : option Z) (n : nat) (fs : gmap string (list Byte.byte))
    (x : Z * Happening) :
  fst (fst (turn script (last, n, fs) x)) = last_after script last x.
Proof.
  unfold turn, last_after, is_modify_happening.
  destruct (snd x) as [? ?|ev]; [reflexivity |].
  now destruct (is_modify_of_script script ev).
Qed.

Lemma run_stream_calm p0 timeline : forall last n fs t,
  ascending t timeline = true ->
  uninterrupted script last timeline = true ->
  (forall t', last = Some t' -> t < t' + 500) ->
  run_timeline host script (calm p0 last n fs t) timeline =
  (let '(last', n', fs') := fold_left (turn script) timeline (last, n, fs) in
   calm p0 last' n' fs' (end_time t timeline)) /\
  (forall t', fst (fst (fold_left (turn script) timeline (last, n, fs))) = Some t' ->
              end_time t timeline < t' + 500).
Proof.
  unfold run_timeline, end_time.
  induction timeline as [|x rest IH]; intros last n fs t Hasc Hun Hlast.
  - cbn. split; [reflexivity | exact Hlast].
  - cbn in Hasc, Hun. apply andb_prop in Hasc as [Hle Hasc], Hun as [Hx Hun].
    apply Z.leb_le in Hle.
    cbn [fold_left].
    rewrite (deliver_calm host script p0 last n fs t
               (match last with Some t' => t' | None => fst x end) x Hle).
    + pose proof (turn_last last n fs x) as Hl.
      destruct (turn script (last, n, fs) x) as [[last' n'] fs'] eqn:E.
      cbn [fst] in Hl. subst last'.
      apply IH; [exact Hasc | exact Hun |].
      intros t' Ht'. unfold last_after in Ht'.
      destruct (is_modify_happening script x).
      * inversion Ht'. lia.
      * subst last. apply Z.ltb_lt in Hx. exact Hx.
    + intros t' ->. lia.
    + destruct last as [t'|]; [apply Z.ltb_lt in Hx; exact Hx | lia].
Qed.

Lemma stream_settles (p : Process) (t_last : Z) (timeline : list (Z * Happening)) :
  alive p = Running ->
  watching p = true ->
  timers (world p) = [] ->
  ascending (now (world p)) timeline = true ->
  uninterrupted script None timeline = true ->
  last_modify script timeline = Some t_last ->
  let n := count_modify script timeline in
  settle host script (run_timeline host script p timeline) =
  settle_outcome
    (runScript host script (reload_world script p timeline t_last))
    (with_fired (fired p ++ [((next_timer (world p) + n - 1)%nat, t_last + 500)])
       (calm p (Some t_last) n (written timeline (files (world p)))
          (end_time (now (world p)) timeline))).
Proof.
  intros Halive Hwatch Htimers Hasc Hun Hlast n.
  assert (Hp : p = calm p None 0 (files (world p)) (now (world p))).
  { destruct p as [[fs c tf wk nw ts nt j] sv wt ti al fi]. cbn in *. subst.
    unfold calm. cbn. now rewrite Nat.add_0_r. }
  destruct (run_stream_calm p timeline None 0%nat (files (world p)) (now (world p))
              Hasc Hun ltac:(discriminate)) as (Hrun & Hend).
  rewrite (fold_turn script) in Hrun, Hend. cbn [fst snd] in Hend.
  fold (last_modify script timeline) in Hrun, Hend. rewrite Hlast in Hrun, Hend.
  specialize (Hend t_last eq_refl).
  cbn [Nat.add] in Hrun. fold n in Hrun.
  rewrite <- Hp in Hrun. rewrite Hrun.
  unfold settle, fire, pending. cbn [calm world timers fold_left alive existsb fst snd].
  rewrite Nat.eqb_refl. cbn [orb].
  unfold at_fire, set_timers, set_now, reload_world.
  cbn -[runScript]. rewrite Nat.eqb_refl. cbn -[runScript].
  rewrite Z.max_r by lia. reflexivity.
Qed.

(** X15: the debounce restarts with every modify event.  A stream of
    happenings of any total length in which each one comes less than 500 ms
    after the modify event before it triggers exactly one reload, 500 ms
    after the last modify event, on the files as the stream left them. *)
Theorem stream_triggers_one_reload (p : Process) (t_last : Z)
    (timeline : list (Z * Happening)) :
  alive p = Running ->
  watching p = true ->
  timers (world p) = [] ->
  ascending (now (world p)) timeline = true ->
  uninterrupted script None timeline = true ->
  last_modify script timeline = Some t_last ->
  let n := count_modify script timeline in
  let p' := settle host script (run_timeline host script p timeline) in
  fired p' = fired p ++ [((next_timer (world p) + n - 1)%nat, t_last + 500)] /\
  world p' = snd (runScript host script (reload_world script p timeline t_last)) /\
  timers (world p') = [].
Proof.
  intros Halive Hwatch Htimers Hasc Hun Hlast n p'. subst p'.
  rewrite (stream_settles p t_last timeline Halive Hwatch Htimers Hasc Hun Hlast).
  rewrite world_of_settle_outcome, fired_of_settle_outcome.
  split; [reflexivity |]. split; [reflexivity |].
  now rewrite runScript_timers.
Qed.

(** X16: when a classic script was saved and the worker host accepts the
    saved bytes, the reload after the stream makes the worker host run
    exactly the bytes that the file holds, and the process goes on. *)
Theorem saved_script_is_run (p : Process) (t_last : Z)
    (timeline : list (Z * Happening)) (data : list Byte.byte) :
  alive p = Running ->
  watching p = true ->
  timers (world p) = [] ->
  ascending (now (world p)) timeline = true ->
  uninterrupted script None timeline = true ->
  last_modify script timeline = Some t_last ->
  scriptType script = Script_ ->
  written timeline (files (world p)) !! path script = Some data ->
  workerManager_run host data Script_ = None ->
  let p' := settle host script (run_timeline host script p timeline) in
  alive p' = Running /\
  worker (world p') = Some (data, Script_) /\
  journal (world p') =
  journal (world p) ++
    [ConsoleLog ("runScript: " +:+ path script); ReadFile (path script);
     WorkerManagerRun data Script_].
Proof.
  intros Halive Hwatch Htimers Hasc Hun Hlast Hk Hd Hr p'. subst p'.
  rewrite (stream_settles p t_last timeline Halive Hwatch Htimers Hasc Hun Hlast).
  unfold runScript, computeScriptContents, readFile, workerManager_run_.
  rewrite Hk. unfold_m. cbn. rewrite Hd. cbn. rewrite Hr. cbn.
  rewrite <- !app_assoc. now repeat split.
Qed.

Lemma runScript_frame (w : World) :
  let w' := snd (runScript host script w) in
  files w' = files w /\ cached w' = cached w /\ trace_fetches w' = trace_fetches w /\
  now w' = now w /\ next_timer w' = next_timer w.
Proof.
  unfold runScript, computeScriptContents, readFile, emit, workerManager_run_.
  unfold_m. cbn.
  destruct (scriptType script); cbn.
  - destruct (deno_emit host (files w) (path script)); cbn; [now repeat split |].
    destruct (workerManager_run host _ _); now repeat split.
  - destruct (files w !! path script); cbn; [| now repeat split].
    destruct (workerManager_run host _ _); now repeat split.
Qed.

(** X17: when the timeout of the reloader runs and [workerManager.run]
    accepts the new contents, the worker host runs them from then on and the
    process goes on. *)
Theorem reload_success_swaps_worker (p : Process) (timer : nat * Z) (w1 : World)
    (scriptContents : list Byte.byte) :
  alive p = Running ->
  pending (fst timer) (world p) = true ->
  computeScriptContents host (path script) (scriptType script)
    (snd (consoleLog ("runScript: " +:+ path script) (at_fire timer (world p))))
  = (Returned scriptContents, w1) ->
  workerManager_run host scriptContents (scriptType script) = None ->
  let p' := fire host script p timer in
  alive p' = Running /\
  worker (world p') = Some (scriptContents, scriptType script) /\
  journal (world p') =
  journal w1 ++ [WorkerManagerRun scriptContents (scriptType script)].
Proof.
  intros Ha Hp Hc Hr p'. subst p'. unfold fire. rewrite Ha, Hp. cbv zeta.
  unfold runScript, workerManager_run_. unfold_m. cbn in *. rewrite Hc, Hr. cbn.
  rewrite Ha. now repeat split.
Qed.

(** X18: when the contents cannot be computed (the file of a classic script
    is gone, or the bundling of a module fails), [runScript] ends with that
    exception right after the attempt: [workerManager.run] is not called and
    no error line is logged. *)
Theorem failed_contents_never_reach_worker (w : World) :
  let started := snd (consoleLog ("runScript: " +:+ path script) w) in
  (scriptType script = Script_ -> files w !! path script = None ->
   exists e,
     runScript host script w = (Thrown e, snd (emit_event (ReadFile (path script)) started))) /\
  (scriptType script = Module_ ->
   forall e, deno_emit host (files w) (path script) = inl e ->
     runScript host script w = (Thrown e, snd (emit_event (Emit (path script)) started))).
Proof.
  intros started. subst started. split.
  - intros Hk Hf. unfold runScript, computeScriptContents, readFile. rewrite Hk.
    unfold_m. cbn. rewrite Hf. eexists. reflexivity.
  - intros Hk e He. unfold runScript, computeScriptContents, emit. rewrite Hk.
    unfold_m. cbn. rewrite He. reflexivity.
Qed.

(** X19: when [Deno.emit] succeeds but its files hold no
    'deno:///bundle.js', nothing is thrown: the worker host is asked to run
    an empty module. *)
Theorem missing_bundle_runs_empty_module (w : World) (out : gmap string string) :
  scriptType script = Module_ ->
  deno_emit host (files w) (path script) = inr out ->
  out !! "deno:///bundle.js" = None ->
  exists rest,
    journal (snd (runScript host script w)) =
    journal w ++
      [ConsoleLog ("runScript: " +:+ path script); Emit (path script);
       ConsoleLog "[emit result]";
       ConsoleLog ("Compiled " +:+ path script +:+ " into module contents");
       WorkerManagerRun [] Module_] ++ rest.
Proof.
  intros Hk He Hb. unfold runScript, computeScriptContents, emit, workerManager_run_.
  rewrite Hk. unfold_m. cbn. rewrite He. cbn. rewrite Hb. cbn.
  destruct (workerManager_run host [] Module_); cbn; rewrite <- !app_assoc; cbn;
    eexists; reflexivity.
Qed.

(** X20: when the first [workerManager.run] fails at the start, the error
    is logged and the process exits with status 1 before the watcher is
    installed: there is no server. *)
Theorem first_run_failure_exits_before_watching (w w1 : World)
    (scriptContents : list Byte.byte) (e : Error) :
  runInProcess script = false ->
  workerManager_start host = None ->
  computeScriptContents host (path script) (scriptType script)
    (snd (consoleLog ("runScript: " +:+ path script)
            (snd (emit_event WorkerManagerStart w))))
  = (Returned scriptContents, w1) ->
  workerManager_run host scriptContents (scriptType script) = Some e ->
  let p := boot host script w in
  alive p = ExitedWith 1 /\ server p = None /\ watching p = false /\
  journal (world p) =
  journal w1 ++ [WorkerManagerRun scriptContents (scriptType script);
                 ConsoleError "Error running script" e].
Proof.
  intros Hin Hs Hc Hr p. subst p.
  unfold boot, createLocalRequestServer, WorkerManager_start. rewrite Hin, Hs.
  unfold runScript, workerManager_run_. unfold_m. cbn in *. rewrite Hc, Hr. cbn.
  rewrite <- !app_assoc. now repeat split.
Qed.

(** A happening at or after the deadline of the only pending timeout finds
    the process as that timeout left it. *)
Lemma deliver_after_due (c : Process) (timer : nat * Z) (x : Z * Happening) :
  timers (world c) = [timer] ->
  snd timer <= fst x ->
  timers (world (fire host script c timer)) = [] ->
  deliver host script c x = deliver host script (fire host script c timer) x.
Proof.
  intros Ht Hdue Hq. unfold deliver, advance. rewrite Ht, Hq.
  cbn [List.filter fold_left].
  destruct (Z.leb_spec (snd timer) (fst x)); [reflexivity | lia].
Qed.

(** X21: the debounce swallows no edit.  Two streams with at least 500 ms
    of quiet between the last modify event of the first and the start of the
    second trigger two reloads, one 500 ms after the last modify event of
    each, provided the first reload returns. *)
Theorem spaced_streams_reload_twice (p : Process) (t1 t2 : Z)
    (first second : list (Z * Happening)) :
  alive p = Running ->
  watching p = true ->
  timers (world p) = [] ->
  ascending (now (world p)) first = true ->
  uninterrupted script None first = true ->
  last_modify script first = Some t1 ->
  fst (runScript host script (reload_world script p first t1)) = Returned tt ->
  ascending (t1 + 500) second = true ->
  uninterrupted script None second = true ->
  last_modify script second = Some t2 ->
  let n1 := count_modify script first in
  let n2 := count_modify script second in
  fired (settle host script (run_timeline host script p (first ++ second))) =
  fired p ++ [((next_timer (world p) + n1 - 1)%nat, t1 + 500);
              ((next_timer (world p) + n1 + n2 - 1)%nat, t2 + 500)].
Proof.
  intros Halive Hwatch Htimers Hasc1 Hun1 Hl1 Hok Hasc2 Hun2 Hl2 n1 n2.
  pose proof (stream_settles p t1 first Halive Hwatch Htimers Hasc1 Hun1 Hl1) as Hq.
  cbv zeta in Hq. fold n1 in Hq.
  set (c := run_timeline host script p first) in *.
  set (q := settle host script c) in *.
  (* the state after the first stream *)
  assert (Hp : p = calm p None 0 (files (world p)) (now (world p))).
  { destruct p as [[fs cc tf wk nw ts nt j] sv wt ti al fi]. cbn in *. subst.
    unfold calm. cbn. now rewrite Nat.add_0_r. }
  destruct (run_stream_calm p first None 0%nat (files (world p)) (now (world p))
              Hasc1 Hun1 ltac:(discriminate)) as (Hrun & _).
  rewrite (fold_turn script) in Hrun.
  fold (last_modify script first) in Hrun. rewrite Hl1 in Hrun.
  cbn [Nat.add] in Hrun. fold n1 in Hrun. rewrite <- Hp in Hrun. fold c in Hrun.
  assert (Hct : timers (world c) = [((next_timer (world p) + n1 - 1)%nat, t1 + 500)]).
  { rewrite Hrun. reflexivity. }
  assert (Hqf : q = fire host script c ((next_timer (world p) + n1 - 1)%nat, t1 + 500)).
  { unfold q, settle. now rewrite Hct. }
  (* what the first reload left *)
  destruct (runScript host script (reload_world script p first t1)) as [o w_b] eqn:Erun.
  cbn [fst] in Hok. subst o.
  pose proof (runScript_timers host script (reload_world script p first t1)) as Hbt.
  pose proof (runScript_frame (reload_world script p first t1)) as (_ & _ & _ & Hbn & Hbnt).
  rewrite Erun in Hbt, Hbn, Hbnt. cbn in Hbt, Hbn, Hbnt. fold n1 in Hbnt.
  assert (Hqa : alive q = Running) by (rewrite Hq; reflexivity).
  assert (Hqw : watching q = true) by (rewrite Hq; reflexivity).
  assert (Hqt : timers (world q) = []) by (rewrite Hq; exact Hbt).
  assert (Hqn : now (world q) = t1 + 500) by (rewrite Hq; exact Hbn).
  assert (Hqnt : next_timer (world q) = (next_timer (world p) + n1)%nat)
    by (rewrite Hq; exact Hbnt).
  assert (Hqfi : fired q = fired p ++ [((next_timer (world p) + n1 - 1)%nat, t1 + 500)])
    by (rewrite Hq; reflexivity).
  (* the second stream starts from there *)
  assert (Hgo : run_timeline host script p (first ++ second)
                = run_timeline host script q second).
  { unfold run_timeline. rewrite fold_left_app. fold (run_timeline host script p first).
    fold c. destruct second as [|x rest]; [discriminate Hl2 |].
    cbn [fold_left]. f_equal.
    rewrite Hqf. apply deliver_after_due; [exact Hct | | rewrite <- Hqf; exact Hqt].
    cbn [snd]. cbn in Hasc2. apply andb_prop in Hasc2 as [H _]. now apply Z.leb_le in H. }
  rewrite Hgo.
  rewrite <- Hqn in Hasc2.
  rewrite (stream_settles q t2 second Hqa Hqw Hqt Hasc2 Hun2 Hl2).
  rewrite fired_of_settle_outcome. cbn [fired with_fired].
  rewrite Hqfi, Hqnt, <- app_assoc. reflexivity.
Qed.
End Keeps.

(** ** The further properties at concrete inputs *)

Lemma fetchExternalIp_fails_without_ip_witness :
  fst (fetchExternalIp Cases.odd Demo.fresh)
  = Thrown "computeExternalIp: Unexpected trace: fl=29f100 ts=1".
Proof.
  apply (proj2 (fetchExternalIp_fails_without_ip Cases.odd Demo.fresh
                  "fl=29f100 ts=1" eq_refl)).
  apply exec_ip_none. reflexivity.
Defined.

Lemma fetchExternalIp_returns_token_witness :
  exists pre post,
    Demo.trace_text = pre +:+ "ip=" +:+ "203.0.113.7" +:+ post /\
    ~ occurs "ip=" (pre +:+ "ip") /\
    all_chars (fun c => negb (Js.is_space c)) "203.0.113.7" = true /\
    at_space_or_end post = true.
Proof.
  exact (fetchExternalIp_returns_token Demo.online Demo.fresh Demo.trace_text
           "203.0.113.7" eq_refl eq_refl).
Defined.


Lemma upgrade_reply_is_the_handshake_response_witness :
  let request := Demo.get_upgrade "/" "websocket" in
  exists rest,
    journal (snd (service Demo.online Demo.classic WorkerManager request Demo.serving)) =
    journal (snd (computeExternalIp Demo.online Demo.serving)) ++
      [UpgradeWebSocket request;
       ServerFetch WorkerManager request
         {| cfConnectingIp := "203.0.113.7"; hostname := None |};
       RespondWith request Demo.switching_protocols] ++ rest /\
    replies rest = 0%nat /\ wirings rest = 0%nat.
Proof.
  intros request.
  exact (upgrade_reply_is_the_handshake_response Demo.online Demo.classic WorkerManager
           request Demo.serving (snd (computeExternalIp Demo.online Demo.serving))
           "203.0.113.7" 7%nat Demo.switching_protocols (Native Demo.ok_response)
           eq_refl eq_refl eq_refl eq_refl eq_refl).
Defined.

Lemma failed_handshake_skips_executor_witness :
  let request := Demo.get_upgrade "/ws" "websocket" in
  journal (snd (service Cases.no_handshake Demo.classic WorkerManager request
                  Demo.serving)) =
  journal (snd (computeExternalIp Cases.no_handshake Demo.serving)) ++
    [UpgradeWebSocket request;
     ConsoleError "Error servicing request" "Invalid Header: 'sec-websocket-key'"].
Proof.
  intros request.
  exact (failed_handshake_skips_executor Cases.no_handshake Demo.classic WorkerManager
           request Demo.serving (snd (computeExternalIp Cases.no_handshake Demo.serving))
           "203.0.113.7" "Invalid Header: 'sec-websocket-key'" eq_refl eq_refl eq_refl).
Defined.

Lemma deferred_without_server_socket_fails_witness :
  let request := Demo.get_upgrade "/ws" "websocket" in
  journal (snd (service Cases.foreign_socket Demo.classic WorkerManager request
                  Demo.serving)) =
  journal (snd (computeExternalIp Cases.foreign_socket Demo.serving)) ++
    [UpgradeWebSocket request;
     ServerFetch WorkerManager request
       {| cfConnectingIp := "203.0.113.7"; hostname := None |};
     ConsoleError "Error servicing request" "Bad response: expected websocket"].
Proof.
  intros request.
  exact (deferred_without_server_socket_fails Cases.foreign_socket Demo.classic
           WorkerManager request Demo.serving
           (snd (computeExternalIp Cases.foreign_socket Demo.serving))
           "203.0.113.7" 7%nat Demo.switching_protocols
           (Demo.deferred_with (Some 101%Z))
           {| status := Some 101%Z; webSocket := Some 3%nat |} 3%nat
           eq_refl eq_refl eq_refl eq_refl eq_refl eq_refl eq_refl eq_refl).
Defined.

Lemma executor_failure_gets_no_reply_witness :
  let w' := snd (service Demo.online Demo.classic WorkerManager (Demo.get "/throw")
                   Demo.serving) in
  replies (journal w') = 0%nat /\
  last (journal w') = Some (ConsoleError "Error servicing request" "script threw").
Proof.
  intros w'.
  destruct (executor_failure_gets_no_reply Demo.online Demo.classic WorkerManager
              (Demo.get "/throw") Demo.serving
              (snd (computeExternalIp Demo.online Demo.serving))
              "203.0.113.7" "script threw" eq_refl eq_refl) as [Hn Hj].
  split; [exact Hn |]. subst w'. rewrite (Hj eq_refl). reflexivity.
Defined.

Lemma reply_failure_is_logged_witness :
  let w' := snd (service Cases.broken_pipe Demo.classic WorkerManager (Demo.get "/")
                   Demo.serving) in
  last (journal w') = Some (ConsoleError "Error in respondWith" "Broken pipe").
Proof.
  intros w'. subst w'.
  rewrite (reply_failure_is_logged Cases.broken_pipe Demo.classic WorkerManager
             (Demo.get "/") Demo.serving
             (snd (computeExternalIp Cases.broken_pipe Demo.serving))
             "203.0.113.7" Demo.ok_response "Broken pipe"
             eq_refl eq_refl eq_refl eq_refl).
  reflexivity.
Defined.

Lemma service_acts_at_most_once_witness :
  let request := Demo.get_upgrade "/ws" "websocket" in
  let opts := {| cfConnectingIp := "203.0.113.7"; hostname := None |} in
  let lookup := [ConsoleLog "fetchExternalIp: Fetching..."; FetchTrace;
                 ConsoleLog "fetchExternalIp: Determined to be 203.0.113.7"] in
  let pre := lookup ++ [UpgradeWebSocket request; ServerFetch WorkerManager request opts] in
  journal (snd (service Demo.online Demo.classic WorkerManager request Demo.serving))
  = journal Demo.serving
    ++ pre ++ [SetRealWebsocket 3 7; RespondWith request Demo.switching_protocols] /\
  (handshakes pre = 1%nat /\ executor_calls pre = 1%nat) /\
  executor_calls (pre ++ [SetRealWebsocket 3 7]) = 1%nat.
Proof.
  intros request opts lookup pre.
  assert (Hrun : journal (snd (service Demo.online Demo.classic WorkerManager request
                                 Demo.serving))
                 = journal Demo.serving
                   ++ pre ++ [SetRealWebsocket 3 7;
                              RespondWith request Demo.switching_protocols])
    by (vm_compute; reflexivity).
  split; [exact Hrun |].
  destruct (service_acts_at_most_once Demo.online Demo.classic WorkerManager request
              Demo.serving) as (delta & Hj & _ & _ & _ & _ & _ & Hreply & Hwire).
  rewrite Hrun in Hj. apply app_inv_head in Hj. subst delta.
  split.
  - exact (Hwire pre 3%nat 7%nat [RespondWith request Demo.switching_protocols] eq_refl).
  - exact (Hreply (pre ++ [SetRealWebsocket 3 7]) request Demo.switching_protocols []
             eq_refl).
Defined.

Lemma executor_gets_the_looked_up_ip_witness :
  let w1 := snd (computeExternalIp Demo.online Demo.serving) in
  let schedule := [Begin 1; Begin 2; Settle 2 (inr "ip=198.51.100.9");
                   Settle 1 (inr Demo.trace_text)] in
  (exists delta,
     journal (snd (service Demo.online Demo.classic WorkerManager (Demo.get "/hello")
                     Demo.serving)) = journal w1 ++ delta /\
     Forall (carries Demo.classic WorkerManager "203.0.113.7" (Demo.get "/hello")) delta) /\
  (exists call' trace,
     In (Settle call' (inr trace)) schedule /\ Js.exec_ip trace = Some "198.51.100.9").
Proof.
  intros w1 schedule.
  destruct (executor_gets_the_looked_up_ip Demo.online Demo.classic WorkerManager
              (Demo.get "/hello") Demo.serving w1 "203.0.113.7") as [Hturn Hvalue].
  split; [exact (Hturn eq_refl) |].
  apply (Hvalue schedule 2%nat "198.51.100.9"). vm_compute. left. reflexivity.
Defined.

Lemma at_most_one_restart_pending_witness :
  (List.length
     (timers (world (run_timeline Demo.online Demo.classic
                       (boot Demo.online Demo.classic Demo.fresh)
                       (Demo.burst ++ Cases.later_edit)))) <= 1)%nat.
Proof.
  apply at_most_one_restart_pending. reflexivity.
Defined.

Lemma reloads_bounded_by_modify_events_witness :
  exists more,
    fired (settle Demo.online Demo.classic
             (run_timeline Demo.online Demo.classic
                (boot Demo.online Demo.classic Demo.fresh)
                (Demo.burst ++ Cases.later_edit))) = [] ++ more /\
    (List.length more <= 5)%nat.
Proof.
  exact (reloads_bounded_by_modify_events Demo.online Demo.classic
           (boot Demo.online Demo.classic Demo.fresh)
           (Demo.burst ++ Cases.later_edit) eq_refl).
Defined.

Lemma stream_triggers_one_reload_witness :
  fired (settle Demo.online Demo.classic
           (run_timeline Demo.online Demo.classic
              (boot Demo.online Demo.classic Demo.fresh) Cases.slow_stream))
  = [(4%nat, 2700%Z)].
Proof.
  exact (proj1 (stream_triggers_one_reload Demo.online Demo.classic
                  (boot Demo.online Demo.classic Demo.fresh) 2200 Cases.slow_stream
                  eq_refl eq_refl eq_refl eq_refl eq_refl eq_refl)).
Defined.

Lemma saved_script_is_run_witness :
  let p' := settle Demo.online Demo.classic
              (run_timeline Demo.online Demo.classic
                 (boot Demo.online Demo.classic Demo.fresh) Demo.burst) in
  alive p' = Running /\ worker (world p') = Some (Demo.bytes_of "v3", Script_).
Proof.
  intros p'.
  destruct (saved_script_is_run Demo.online Demo.classic
              (boot Demo.online Demo.classic Demo.fresh) 1201 Demo.burst
              (Demo.bytes_of "v3")
              eq_refl eq_refl eq_refl eq_refl eq_refl eq_refl eq_refl eq_refl eq_refl)
    as (H1 & H2 & _).
  split; [exact H1 | exact H2].
Defined.

Lemma reload_success_swaps_worker_witness :
  let p := run_timeline Demo.online Demo.classic
             (boot Demo.online Demo.classic Demo.fresh) Demo.burst in
  let p' := fire Demo.online Demo.classic p (4%nat, 1701%Z) in
  alive p' = Running /\ worker (world p') = Some (Demo.bytes_of "v3", Script_).
Proof.
  intros p p'.
  destruct (reload_success_swaps_worker Demo.online Demo.classic p (4%nat, 1701%Z)
              (snd (computeScriptContents Demo.online "worker.js" Script_
                      (snd (consoleLog "runScript: worker.js"
                              (at_fire (4%nat, 1701%Z) (world p))))))
              (Demo.bytes_of "v3"))
    as (H1 & H2 & _); try (vm_compute; reflexivity).
  split; [exact H1 | exact H2].
Defined.

Lemma failed_contents_never_reach_worker_witness :
  (exists e,
     runScript Demo.online Demo.classic Cases.wiped =
     (Thrown e,
      snd (emit_event (ReadFile "worker.js")
             (snd (consoleLog "runScript: worker.js" Cases.wiped))))) /\
  runScript Demo.online Demo.typescript Cases.wiped =
  (Thrown "Module not found",
   snd (emit_event (Emit "worker.ts")
          (snd (consoleLog "runScript: worker.ts" Cases.wiped)))).
Proof.
  destruct (failed_contents_never_reach_worker Demo.online Demo.classic Cases.wiped)
    as [Hjs _].
  destruct (failed_contents_never_reach_worker Demo.online Demo.typescript Cases.wiped)
    as [_ Hts].
  split; [exact (Hjs eq_refl eq_refl) | exact (Hts eq_refl "Module not found" eq_refl)].
Defined.

Lemma missing_bundle_runs_empty_module_witness :
  exists rest,
    journal (snd (runScript Cases.odd Demo.typescript Demo.fresh)) =
    journal Demo.fresh ++
      [ConsoleLog "runScript: worker.ts"; Emit "worker.ts";
       ConsoleLog "[emit result]";
       ConsoleLog "Compiled worker.ts into module contents";
       WorkerManagerRun [] Module_] ++ rest.
Proof.
  exact (missing_bundle_runs_empty_module Cases.odd Demo.typescript Demo.fresh ∅
           eq_refl eq_refl eq_refl).
Defined.

Lemma first_run_failure_exits_before_watching_witness :
  let p := boot Demo.online Demo.classic Cases.spoiled in
  alive p = ExitedWith 1 /\ server p = None /\ watching p = false.
Proof.
  intros p.
  destruct (first_run_failure_exits_before_watching Demo.online Demo.classic
              Cases.spoiled
              (snd (computeScriptContents Demo.online "worker.js" Script_
                      (snd (consoleLog "runScript: worker.js"
                              (snd (emit_event WorkerManagerStart Cases.spoiled))))))
              (Demo.bytes_of "!oops") "SyntaxError: Unexpected token '!'")
    as (H1 & H2 & H3 & _); try (vm_compute; reflexivity).
  split; [exact H1 |]. split; [exact H2 | exact H3].
Defined.

Lemma spaced_streams_reload_twice_witness :
  fired (settle Demo.online Demo.classic
           (run_timeline Demo.online Demo.classic
              (boot Demo.online Demo.classic Demo.fresh)
              (Demo.burst ++ Cases.later_edit)))
  = [(4%nat, 1701%Z); (5%nat, 3000%Z)].
Proof.
  exact (spaced_streams_reload_twice Demo.online Demo.classic
           (boot Demo.online Demo.classic Demo.fresh) 1201 2500
           Demo.burst Cases.later_edit
           eq_refl eq_refl eq_refl eq_refl eq_refl eq_refl eq_refl eq_refl eq_refl
           eq_refl).
Defined.
